(** * AliexpressApi: the affiliate client of [aliexpress_api/api.py]

    A shallow embedding of the class [AliexpressApi].  Python values that
    travel through the client (arguments, request fields, response
    envelopes) are terms of [PyVal]; the client object and the log of
    outbound calls form the [World] that every method threads; a method is
    a computation in the monad [M], which returns either the raised
    exception or the returned value, together with the world it leaves. *)

From Stdlib Require Import ZArith.
From stdpp Require Import base strings gmap list pretty.

Local Open Scope string_scope.

#[local] Set Warnings "-register-all".

(** ** Python values *)

(** [PyObj] is an attribute namespace (the transport builds its responses
    as [SimpleNamespace] objects): an ordered list of attribute bindings. *)
Inductive PyVal : Type :=
| PyNone
| PyBool (b : bool)
| PyInt (z : Z)
| PyStr (s : string)
| PyList (items : list PyVal)
| PyTuple (items : list PyVal)
| PyObj (attrs : list (string * PyVal)).

(** Exceptions.  The four domain exceptions are the ones [api.py] raises
    itself; [AttributeError] and [TypeError] are raised by the interpreter
    on a missing attribute or an unordered comparison; [Raised] stands for
    whatever else a helper or the transport lets through
    ([InvalidArgumentException], [ApiRequestException], ...). *)
Inductive Exn : Type :=
| ProductsNotFoudException (msg : string)
| CategoriesNotFoudException (msg : string)
| OrdersNotFoundException (msg : string)
| InvalidTrackingIdException (msg : string)
| AttributeError (name : string)
| TypeError (msg : string)
| Raised (cls msg : string).

Definition Res (A : Type) : Type := (Exn + A)%type.

(** [bool(v)], as used by [not v] and by [and]. *)
Definition py_truthy (v : PyVal) : bool :=
  match v with
  | PyNone => false
  | PyBool b => b
  | PyInt z => negb (z =? 0)%Z
  | PyStr s => negb (String.eqb s "")
  | PyList l | PyTuple l => match l with [] => false | _ => true end
  | PyObj _ => true
  end.

Fixpoint assoc_lookup (name : string) (attrs : list (string * PyVal))
  : option PyVal :=
  match attrs with
  | [] => None
  | (k, v) :: rest => if String.eqb k name then Some v else assoc_lookup name rest
  end.

Fixpoint assoc_update (name : string) (v : PyVal) (attrs : list (string * PyVal))
  : list (string * PyVal) :=
  match attrs with
  | [] => [(name, v)]
  | (k, w) :: rest =>
      if String.eqb k name then (k, v) :: rest
      else (k, w) :: assoc_update name v rest
  end.

(** [hasattr(o, name)] for the attribute names the client probes. *)
Definition py_hasattr (o : PyVal) (name : string) : bool :=
  match o with
  | PyObj attrs => match assoc_lookup name attrs with Some _ => true | None => false end
  | _ => false
  end.

(** [o.name] *)
Definition py_getattr (o : PyVal) (name : string) : Res PyVal :=
  match o with
  | PyObj attrs =>
      match assoc_lookup name attrs with
      | Some v => inr v
      | None => inl (AttributeError name)
      end
  | _ => inl (AttributeError name)
  end.

(** [o.name = v] *)
Definition py_setattr (o : PyVal) (name : string) (v : PyVal) : Res PyVal :=
  match o with
  | PyObj attrs => inr (PyObj (assoc_update name v attrs))
  | _ => inl (AttributeError name)
  end.

(** [v > 0] *)
Definition py_gt_zero (v : PyVal) : Res bool :=
  match v with
  | PyInt z => inr (0 <? z)%Z
  | PyBool b => inr b
  | _ => inl (TypeError "'>' not supported")
  end.

(** [str(d)] for an argument annotated [int = None]. *)
Definition py_str_opt_int (d : option Z) : string :=
  match d with
  | None => "None"
  | Some z => pretty z
  end.

(** [','.join(l)] *)
Fixpoint py_join_comma (l : list PyVal) : Res string :=
  match l with
  | [] => inr ""
  | PyStr s :: rest =>
      match rest with
      | [] => inr s
      | _ => match py_join_comma rest with
             | inr t => inr (s ++ "," ++ t)
             | inl e => inl e
             end
      end
  | _ :: _ => inl (TypeError "sequence item: expected str instance")
  end.

(** ** Requests *)

(** A vendor request object: its class and the attributes assigned so far. *)
Record Request : Type := mkRequest {
  req_class : string;
  req_attrs : gmap string PyVal
}.

Definition new_request (cls : string) : Request := mkRequest cls ∅.

Definition set_field (name : string) (v : PyVal) (r : Request) : Request :=
  mkRequest (req_class r) (<[name := v]> (req_attrs r)).

Definition field (r : Request) (name : string) : option PyVal :=
  req_attrs r !! name.

(** ** The client object and the world *)

Record AliexpressApi : Type := mkApi {
  _key : PyVal;
  _secret : PyVal;
  _tracking_id : PyVal;
  _language : PyVal;
  _currency : PyVal;
  _app_signature : PyVal;
  categories : PyVal
}.

(** [__init__]; the registration of the credentials with the vendor SDK
    ([setDefaultAppInfo]) touches nothing that the methods below read. *)
Definition init (key secret language currency tracking_id app_signature : PyVal)
  : AliexpressApi :=
  mkApi key secret tracking_id language currency app_signature PyNone.

Definition set_categories (c : PyVal) (a : AliexpressApi) : AliexpressApi :=
  mkApi (_key a) (_secret a) (_tracking_id a) (_language a) (_currency a)
        (_app_signature a) c.

(** What leaves the client: calls of the transport and of the product
    transform. *)
Inductive Event : Type :=
| EvTransport (request : Request) (response_name : string)
| EvParse (products : PyVal).

Definition is_transport (e : Event) : bool :=
  match e with EvTransport _ _ => true | EvParse _ => false end.

Definition is_parse (e : Event) : bool :=
  match e with EvParse _ => true | EvTransport _ _ => false end.

Record World : Type := mkWorld {
  self : AliexpressApi;
  trace : list Event
}.

Definition transport_calls (w : World) : nat :=
  length (List.filter is_transport (trace w)).

Definition parse_calls (w : World) : nat :=
  length (List.filter is_parse (trace w)).

(** ** The monad of methods: state that survives a raise *)

Definition M (A : Type) : Type := World -> Res A * World.

Definition ret {A} (a : A) : M A := fun w => (inr a, w).
Definition raise {A} (e : Exn) : M A := fun w => (inl e, w).
Definition bind {A B} (m : M A) (k : A -> M B) : M B :=
  fun w => match m w with
           | (inr a, w') => k a w'
           | (inl e, w') => (inl e, w')
           end.
Definition lift {A} (r : Res A) : M A := fun w => (r, w).
Definition get_self : M AliexpressApi := fun w => (inr (self w), w).
Definition put_self (a : AliexpressApi) : M unit :=
  fun w => (inr tt, mkWorld a (trace w)).

Declare Scope py_scope.
Delimit Scope py_scope with py.
Notation "'let*' x ':=' m 'in' k" := (bind m (fun x => k))
  (at level 10, x name, m at level 100, k at level 200) : py_scope.
Notation "'run' m 'then' k" := (bind m (fun _ => k))
  (at level 10, m at level 100, k at level 200) : py_scope.
Local Open Scope py_scope.


Definition bind_res {A B} (r : Res A) (k : A -> Res B) : Res B :=
  match r with inr a => k a | inl e => inl e end.

Notation "'let?' x ':=' r 'in' k" := (bind_res r (fun x => k))
  (at level 10, x name, r at level 100, k at level 200) : py_scope.

(** ** Category filters *)

(** Modelled from the spec: [filter_parent_categories] and
    [filter_child_categories] of [aliexpress_api/helpers/categories.py],
    which is not among the sources.  The spec has the first keep the
    categories "lacking a parent-id field" and the second those "whose
    parent-id matches"; both keep the order of the list.  Iterating over
    anything but a sequence is an interpreter error. *)
Definition is_parent_category (c : PyVal) : bool :=
  negb (py_hasattr c "parent_category_id").

Definition is_child_of (parent_category_id : Z) (c : PyVal) : bool :=
  match py_getattr c "parent_category_id" with
  | inr (PyInt z) => (z =? parent_category_id)%Z
  | _ => false
  end.

Definition py_iter (v : PyVal) : Res (list PyVal) :=
  match v with
  | PyList l | PyTuple l => inr l
  | _ => inl (TypeError "object is not iterable")
  end.

Definition filter_parent_categories (cats : PyVal) : Res PyVal :=
  let? l := py_iter cats in
  inr (PyList (List.filter is_parent_category l)).

Definition filter_child_categories (cats : PyVal) (parent_category_id : Z)
  : Res PyVal :=
  let? l := py_iter cats in
  inr (PyList (List.filter (is_child_of parent_category_id) l)).

(** ** Size of a value *)

Fixpoint py_size (v : PyVal) : nat :=
  match v with
  | PyList l | PyTuple l => S (list_sum (List.map py_size l))
  | PyObj attrs =>
      S (list_sum (List.map (fun kv => match kv with (_, x) => py_size x end) attrs))
  | _ => 1%nat
  end.

(** ** Stand-ins for the collaborators, for concrete runs *)

(** A transport that answers every call with the same envelope. *)
Definition fixed_transport (response : PyVal)
  : nat -> Request -> string -> Res PyVal :=
  fun _ _ _ => inr response.

(** A transport that always fails. *)
Definition failing_transport : nat -> Request -> string -> Res PyVal :=
  fun _ _ _ => inl (Raised "ApiRequestException" "connection refused").

(** A product transform that leaves the records as they are. *)
Definition keep_products (products : PyVal) : Res PyVal := inr products.

(** Modelled from the spec: [get_list_as_string] of
    [aliexpress_api/helpers], which is not among the sources.  The spec
    has it turn a list or a scalar "into a single comma-joined string;
    empty/None passes through as None". *)
Definition join_list_or_scalar (value : PyVal) : Res PyVal :=
  match value with
  | PyNone => inr PyNone
  | PyStr s => inr (if String.eqb s "" then PyNone else PyStr s)
  | PyList [] => inr PyNone
  | PyList l => let? s := py_join_comma l in inr (PyStr s)
  | _ => inl (Raised "InvalidArgumentException"
                     "Argument should be a list or string")
  end.

(** Modelled from the spec: [get_product_ids] of [aliexpress_api/helpers],
    which is not among the sources; a scalar is wrapped as a singleton
    list and a list is kept. *)
Definition wrap_product_ids (values : PyVal) : Res PyVal :=
  match values with
  | PyStr s => inr (PyList [PyStr s])
  | PyList l => inr (PyList l)
  | _ => inl (Raised "InvalidArgumentException"
                     "Argument product_ids should be a list or string")
  end.

(** ** Clients and envelopes for concrete runs *)

Definition client_with (tracking_id : PyVal) : AliexpressApi :=
  init (PyStr "key") (PyStr "secret") (PyStr "EN") (PyStr "USD")
       tracking_id PyNone.

(** A client straight out of the constructor, nothing sent yet. *)
Definition fresh_world (tracking_id : PyVal) : World :=
  mkWorld (client_with tracking_id) [].

Definition parent_category : PyVal :=
  PyObj [("category_id", PyInt 1); ("category_name", PyStr "Food")].

Definition child_category (id parent_id : Z) : PyVal :=
  PyObj [("category_id", PyInt id); ("category_name", PyStr "Snacks");
         ("parent_category_id", PyInt parent_id)].

Definition three_categories : list PyVal :=
  [parent_category; child_category 2 100; child_category 3 200].

(** A client whose cache holds one parent and two children. *)
Definition cached_world : World :=
  mkWorld (set_categories (PyList three_categories) (client_with PyNone)) [].

Definition categories_envelope : PyVal :=
  PyObj [("total_result_count", PyInt 3);
         ("categories", PyObj [("category", PyList three_categories)])].

Definition no_products_envelope : PyVal :=
  PyObj [("current_record_count", PyInt 0)].

Definition promotion_link : PyVal :=
  PyObj [("promotion_link", PyStr "https://s.click.aliexpress.com/e/_abc");
         ("source_value", PyStr "http://x.com/p/1")].

Definition links_envelope : PyVal :=
  PyObj [("total_result_count", PyInt 1);
         ("promotion_links", PyObj [("promotion_link", PyList [promotion_link])])].

Definition one_product : PyVal :=
  PyObj [("product_id", PyInt 4000); ("product_title", PyStr "Lamp")].

Definition smartmatch_envelope : PyVal :=
  PyObj [("products", PyObj [("product", PyList [one_product])])].

(** [models.LinkType.HOT]; the enumeration is not among the sources, and
    its value only travels into the request. *)
Definition link_type_hot : PyVal := PyInt 2.

Definition one_link : PyVal := PyList [PyStr "http://x.com/p/1"].

Definition products_envelope : PyVal :=
  PyObj [("current_record_count", PyInt 1); ("total_record_count", PyInt 40);
         ("products", PyObj [("product", PyList [one_product])])].

Definition orders_envelope : PyVal :=
  PyObj [("current_record_count", PyInt 2);
         ("orders", PyObj [("order", PyList [PyObj [("order_id", PyInt 7)];
                                             PyObj [("order_id", PyInt 8)]])])].

(** A count of three with a single link in the list. *)
Definition lopsided_links_envelope : PyVal :=
  PyObj [("total_result_count", PyInt 3);
         ("promotion_links", PyObj [("promotion_link", PyList [promotion_link])])].

(** An envelope whose products attribute is an object without records. *)
Definition recordless_envelope : PyVal :=
  PyObj [("products", PyObj [])].

Definition negative_count_envelope : PyVal :=
  PyObj [("current_record_count", PyInt (-1))].

(** An envelope without any count. *)
Definition bare_envelope : PyVal :=
  PyObj [("orders", PyObj [("order", PyList [])])].

(** ** The methods of [AliexpressApi] *)

Section Client.

(** The collaborators that [api.py] imports.  [api_request] is the vendor
    transport; its answer may depend on how many calls came before, as a
    scripted mock's does.  [parse_products], [get_list_as_string] and
    [get_product_ids] are the helpers of [aliexpress_api/helpers]. *)
Variable api_request : nat -> Request -> string -> Res PyVal.
Variable parse_products : PyVal -> Res PyVal.
Variable get_list_as_string : PyVal -> Res PyVal.
Variable get_product_ids : PyVal -> Res PyVal.

Definition call_api_request (request : Request) (response_name : string)
  : M PyVal :=
  fun w => (api_request (transport_calls w) request response_name,
            mkWorld (self w) (trace w ++ [EvTransport request response_name])).

Definition call_parse_products (products : PyVal) : M PyVal :=
  fun w => (parse_products products,
            mkWorld (self w) (trace w ++ [EvParse products])).

(** [if count > 0: found else: raise not_found] *)
Definition check_count (response : PyVal) (count_field : string)
    (found : M PyVal) (not_found : Exn) : M PyVal :=
  let* count := lift (py_getattr response count_field) in
  let* positive := lift (py_gt_zero count) in
  if positive : bool then found else raise not_found.

(** *** get_products_details *)

Definition productdetail_request (me : AliexpressApi)
    (product_ids fields country : PyVal) : Res Request :=
  let? product_ids := get_product_ids product_ids in
  let? product_ids := get_list_as_string product_ids in
  let request := new_request "AliexpressAffiliateProductdetailGetRequest" in
  let request := set_field "app_signature" (_app_signature me) request in
  let? fields := get_list_as_string fields in
  let request := set_field "fields" fields request in
  let request := set_field "product_ids" product_ids request in
  let request := set_field "country" country request in
  let request := set_field "target_currency" (_currency me) request in
  let request := set_field "target_language" (_language me) request in
  let request := set_field "tracking_id" (_tracking_id me) request in
  inr request.

Definition get_products_details (product_ids fields country : PyVal)
  : M PyVal :=
  let* me := get_self in
  let* request := lift (productdetail_request me product_ids fields country) in
  let* response :=
    call_api_request request "aliexpress_affiliate_productdetail_get_response" in
  check_count response "current_record_count"
    (let* products := lift (py_getattr response "products") in
     let* product := lift (py_getattr products "product") in
     call_parse_products product)
    (ProductsNotFoudException "No products found with current parameters").

(** *** get_affiliate_links *)

Definition link_generate_request (me : AliexpressApi)
    (links link_type : PyVal) : Res Request :=
  let? links := get_list_as_string links in
  let request := new_request "AliexpressAffiliateLinkGenerateRequest" in
  let request := set_field "app_signature" (_app_signature me) request in
  let request := set_field "source_values" links request in
  let request := set_field "promotion_link_type" link_type request in
  let request := set_field "tracking_id" (_tracking_id me) request in
  inr request.

Definition get_affiliate_links (links link_type : PyVal) : M PyVal :=
  let* me := get_self in
  if negb (py_truthy (_tracking_id me)) then
    raise (InvalidTrackingIdException
             "The tracking id is required for affiliate links")
  else
    let* request := lift (link_generate_request me links link_type) in
    let* response :=
      call_api_request request "aliexpress_affiliate_link_generate_response" in
    check_count response "total_result_count"
      (let* promotion_links := lift (py_getattr response "promotion_links") in
       lift (py_getattr promotion_links "promotion_link"))
      (ProductsNotFoudException "Affiliate links not available").

(** *** get_hotproducts and get_products *)

(** The two searches assign the same fields to requests of different
    classes. *)
Definition query_request (cls : string) (me : AliexpressApi)
    (category_ids : PyVal) (delivery_days : option Z)
    (fields keywords max_sale_price min_sale_price page_no page_size
     platform_product_type ship_to_country sort : PyVal) : Res Request :=
  let request := new_request cls in
  let request := set_field "app_signature" (_app_signature me) request in
  let? category_ids := get_list_as_string category_ids in
  let request := set_field "category_ids" category_ids request in
  let request :=
    set_field "delivery_days" (PyStr (py_str_opt_int delivery_days)) request in
  let? fields := get_list_as_string fields in
  let request := set_field "fields" fields request in
  let request := set_field "keywords" keywords request in
  let request := set_field "max_sale_price" max_sale_price request in
  let request := set_field "min_sale_price" min_sale_price request in
  let request := set_field "page_no" page_no request in
  let request := set_field "page_size" page_size request in
  let request := set_field "platform_product_type" platform_product_type request in
  let request := set_field "ship_to_country" ship_to_country request in
  let request := set_field "sort" sort request in
  let request := set_field "target_currency" (_currency me) request in
  let request := set_field "target_language" (_language me) request in
  let request := set_field "tracking_id" (_tracking_id me) request in
  inr request.

(** [response.products = parse_products(response.products.product);
    return response] *)
Definition parse_into_envelope (response : PyVal) : M PyVal :=
  let* products := lift (py_getattr response "products") in
  let* product := lift (py_getattr products "product") in
  let* parsed := call_parse_products product in
  lift (py_setattr response "products" parsed).

Definition query (cls response_name : string)
    (category_ids : PyVal) (delivery_days : option Z)
    (fields keywords max_sale_price min_sale_price page_no page_size
     platform_product_type ship_to_country sort : PyVal) : M PyVal :=
  let* me := get_self in
  let* request :=
    lift (query_request cls me category_ids delivery_days fields keywords
            max_sale_price min_sale_price page_no page_size
            platform_product_type ship_to_country sort) in
  let* response := call_api_request request response_name in
  check_count response "current_record_count"
    (parse_into_envelope response)
    (ProductsNotFoudException "No products found with current parameters").

Definition get_hotproducts :=
  query "AliexpressAffiliateHotproductQueryRequest"
        "aliexpress_affiliate_hotproduct_query_response".

Definition get_products :=
  query "AliexpressAffiliateProductQueryRequest"
        "aliexpress_affiliate_product_query_response".

(** *** get_categories and the two accessors *)

Definition category_request (me : AliexpressApi) : Request :=
  set_field "app_signature" (_app_signature me)
    (new_request "AliexpressAffiliateCategoryGetRequest").

Definition get_categories : M PyVal :=
  let* me := get_self in
  let* response :=
    call_api_request (category_request me)
                     "aliexpress_affiliate_category_get_response" in
  check_count response "total_result_count"
    (let* cats := lift (py_getattr response "categories") in
     let* category := lift (py_getattr cats "category") in
     run put_self (set_categories category me) then
     let* me := get_self in
     ret (categories me))
    (CategoriesNotFoudException "No categories found").

(** [if not use_cache or not self.categories: self.get_categories()] *)
Definition refresh_categories (use_cache : PyVal) : M unit :=
  let* me := get_self in
  if negb (py_truthy use_cache) || negb (py_truthy (categories me)) then
    run get_categories then ret tt
  else ret tt.

Definition get_parent_categories (use_cache : PyVal) : M PyVal :=
  run refresh_categories use_cache then
  let* me := get_self in
  lift (filter_parent_categories (categories me)).

Definition get_child_categories (parent_category_id : Z) (use_cache : PyVal)
  : M PyVal :=
  run refresh_categories use_cache then
  let* me := get_self in
  lift (filter_child_categories (categories me) parent_category_id).

(** *** smart_match_product *)

(** [request.app = app,] assigns the one-element tuple. *)
Definition smartmatch_request (me : AliexpressApi)
    (device_id app country device fields keywords page_no product_id site
     target_currency target_language tracking_id user : PyVal) : Res Request :=
  let request := new_request "AliexpressAffiliateProductSmartmatchRequest" in
  let request := set_field "app" (PyTuple [app]) request in
  let request := set_field "app_signature" (_app_signature me) request in
  let request := set_field "country" country request in
  let request := set_field "device" device request in
  let request := set_field "device_id" device_id request in
  let? fields := get_list_as_string fields in
  let request := set_field "fields" fields request in
  let request := set_field "keywords" keywords request in
  let request := set_field "page_no" page_no request in
  let request := set_field "product_id" product_id request in
  let request := set_field "site" site request in
  let request := set_field "target_currency" target_currency request in
  let request := set_field "target_language" target_language request in
  let request := set_field "tracking_id" tracking_id request in
  let request := set_field "user" user request in
  inr request.

(** [hasattr(response, 'products') and response.products] *)
Definition products_populated (response : PyVal) : bool :=
  py_hasattr response "products" &&
  match py_getattr response "products" with
  | inr products => py_truthy products
  | inl _ => false
  end.

Definition smart_match_product
    (device_id app country device fields keywords page_no product_id site
     target_currency target_language tracking_id user : PyVal) : M PyVal :=
  let* me := get_self in
  let* request :=
    lift (smartmatch_request me device_id app country device fields keywords
            page_no product_id site target_currency target_language
            tracking_id user) in
  let* response :=
    call_api_request request "aliexpress_affiliate_product_smartmatch_response" in
  if products_populated response then parse_into_envelope response
  else raise (ProductsNotFoudException
                "No products found with current parameters").

(** *** get_order_list *)

(** [','.join(fields) if isinstance(fields, list) else fields] *)
Definition join_if_list (fields : PyVal) : Res PyVal :=
  match fields with
  | PyList l => let? s := py_join_comma l in inr (PyStr s)
  | _ => inr fields
  end.

Definition order_list_request (me : AliexpressApi)
    (status start_time end_time fields locale_site page_no page_size : PyVal)
  : Res Request :=
  let request := new_request "AliexpressAffiliateOrderListRequest" in
  let request := set_field "app_signature" (_app_signature me) request in
  let request := set_field "start_time" start_time request in
  let request := set_field "end_time" end_time request in
  let? fields := join_if_list fields in
  let request := set_field "fields" fields request in
  let request := set_field "locale_site" locale_site request in
  let request := set_field "page_no" page_no request in
  let request := set_field "page_size" page_size request in
  let request := set_field "status" status request in
  inr request.

Definition get_order_list
    (status start_time end_time fields locale_site page_no page_size : PyVal)
  : M PyVal :=
  let* me := get_self in
  let* request :=
    lift (order_list_request me status start_time end_time fields locale_site
            page_no page_size) in
  let* response :=
    call_api_request request "aliexpress_affiliate_order_list_response" in
  check_count response "current_record_count"
    (ret response)
    (OrdersNotFoundException "No orders found for the specified parameters").

(** *** The fetch-class operations, with their arguments *)

Inductive FetchOp : Type :=
| OpProductsDetails (product_ids fields country : PyVal)
| OpAffiliateLinks (links link_type : PyVal)
| OpHotproducts (category_ids : PyVal) (delivery_days : option Z)
    (fields keywords max_sale_price min_sale_price page_no page_size
     platform_product_type ship_to_country sort : PyVal)
| OpProducts (category_ids : PyVal) (delivery_days : option Z)
    (fields keywords max_sale_price min_sale_price page_no page_size
     platform_product_type ship_to_country sort : PyVal)
| OpCategories
| OpOrderList
    (status start_time end_time fields locale_site page_no page_size : PyVal).

Definition run_op (op : FetchOp) : M PyVal :=
  match op with
  | OpProductsDetails p f c => get_products_details p f c
  | OpAffiliateLinks l t => get_affiliate_links l t
  | OpHotproducts c d f k mx mn pn ps pt sc so =>
      get_hotproducts c d f k mx mn pn ps pt sc so
  | OpProducts c d f k mx mn pn ps pt sc so =>
      get_products c d f k mx mn pn ps pt sc so
  | OpCategories => get_categories
  | OpOrderList st s e f l pn ps => get_order_list st s e f l pn ps
  end.

(** The attribute of the envelope each operation compares with zero. *)
Definition count_field (op : FetchOp) : string :=
  match op with
  | OpAffiliateLinks _ _ | OpCategories => "total_result_count"
  | _ => "current_record_count"
  end.

(** The exception each operation raises on a count of zero. *)
Definition not_found (op : FetchOp) : Exn :=
  match op with
  | OpAffiliateLinks _ _ =>
      ProductsNotFoudException "Affiliate links not available"
  | OpCategories => CategoriesNotFoudException "No categories found"
  | OpOrderList _ _ _ _ _ _ _ =>
      OrdersNotFoundException "No orders found for the specified parameters"
  | _ => ProductsNotFoudException "No products found with current parameters"
  end.

(** *** Shapes used by the proofs *)

(** The shape shared by the operations: build the request, hand it to
    the transport, go on with the envelope. *)
Definition send (build : Res Request) (response_name : string)
    (k : PyVal -> M PyVal) : M PyVal :=
  let* request := lift build in
  let* response := call_api_request request response_name in
  k response.

(** The fetch-class operations go on by looking at the count. *)
Definition fetch (build : Res Request) (response_name cf : string)
    (found : PyVal -> M PyVal) (nf : Exn) : M PyVal :=
  send build response_name
       (fun response => check_count response cf (found response) nf).

Definition categories_response_name : string :=
  "aliexpress_affiliate_category_get_response".

(** A computation extends the trace when it only appends to it. *)
Definition extends {A} (m : M A) : Prop :=
  forall w, exists l, trace (m w).2 = (trace w ++ l)%list.

(** *** Every public method, with its arguments *)

Inductive Method : Type :=
| Fetch (op : FetchOp)
| SmartMatch (device_id app country device fields keywords page_no product_id
              site target_currency target_language tracking_id user : PyVal)
| ParentCategories (use_cache : PyVal)
| ChildCategories (parent_category_id : Z) (use_cache : PyVal).

Definition run_method (m : Method) : M PyVal :=
  match m with
  | Fetch op => run_op op
  | SmartMatch d a c dv f k pn pid s tc tl t u =>
      smart_match_product d a c dv f k pn pid s tc tl t u
  | ParentCategories use_cache => get_parent_categories use_cache
  | ChildCategories parent_category_id use_cache =>
      get_child_categories parent_category_id use_cache
  end.

(** The request each fetch-class operation builds, the envelope it asks
    for, the check it makes first, and what it does with a positive
    count. *)
Definition built (op : FetchOp) (me : AliexpressApi) : Res Request :=
  match op with
  | OpProductsDetails p f c => productdetail_request me p f c
  | OpAffiliateLinks l t => link_generate_request me l t
  | OpHotproducts c d f k mx mn pn ps pt sc so =>
      query_request "AliexpressAffiliateHotproductQueryRequest" me
        c d f k mx mn pn ps pt sc so
  | OpProducts c d f k mx mn pn ps pt sc so =>
      query_request "AliexpressAffiliateProductQueryRequest" me
        c d f k mx mn pn ps pt sc so
  | OpCategories => inr (category_request me)
  | OpOrderList st s e f l pn ps => order_list_request me st s e f l pn ps
  end.

Definition response_name_of (op : FetchOp) : string :=
  match op with
  | OpProductsDetails _ _ _ => "aliexpress_affiliate_productdetail_get_response"
  | OpAffiliateLinks _ _ => "aliexpress_affiliate_link_generate_response"
  | OpHotproducts _ _ _ _ _ _ _ _ _ _ _ =>
      "aliexpress_affiliate_hotproduct_query_response"
  | OpProducts _ _ _ _ _ _ _ _ _ _ _ =>
      "aliexpress_affiliate_product_query_response"
  | OpCategories => "aliexpress_affiliate_category_get_response"
  | OpOrderList _ _ _ _ _ _ _ => "aliexpress_affiliate_order_list_response"
  end.

Definition guard_ok (op : FetchOp) (me : AliexpressApi) : bool :=
  match op with
  | OpAffiliateLinks _ _ => py_truthy (_tracking_id me)
  | _ => true
  end.

Definition found (op : FetchOp) (me : AliexpressApi) (response : PyVal)
  : M PyVal :=
  match op with
  | OpProductsDetails _ _ _ =>
      let* products := lift (py_getattr response "products") in
      let* product := lift (py_getattr products "product") in
      call_parse_products product
  | OpAffiliateLinks _ _ =>
      let* promotion_links := lift (py_getattr response "promotion_links") in
      lift (py_getattr promotion_links "promotion_link")
  | OpHotproducts _ _ _ _ _ _ _ _ _ _ _
  | OpProducts _ _ _ _ _ _ _ _ _ _ _ => parse_into_envelope response
  | OpCategories =>
      let* cats := lift (py_getattr response "categories") in
      let* category := lift (py_getattr cats "category") in
      run put_self (set_categories category me) then
      let* me := get_self in
      ret (categories me)
  | OpOrderList _ _ _ _ _ _ _ => ret response
  end.

(** The two searches. *)
Definition is_search (op : FetchOp) : bool :=
  match op with
  | OpHotproducts _ _ _ _ _ _ _ _ _ _ _
  | OpProducts _ _ _ _ _ _ _ _ _ _ _ => true
  | _ => false
  end.

(** The credentials and defaults of a client, the cache left aside. *)
Definition same_config (a b : AliexpressApi) : Prop :=
  _key a = _key b /\ _secret a = _secret b
  /\ _tracking_id a = _tracking_id b /\ _language a = _language b
  /\ _currency a = _currency b /\ _app_signature a = _app_signature b.

(** The methods that may assign the cache. *)
Definition touches_cache (m : Method) : bool :=
  match m with
  | Fetch OpCategories | ParentCategories _ | ChildCategories _ _ => true
  | _ => false
  end.

(** What one invocation may add to the trace: nothing, one transport
    call, or one transport call followed by one product transform. *)
Inductive one_exchange : list Event -> Prop :=
| exchange_none : one_exchange []
| exchange_call r n : one_exchange [EvTransport r n]
| exchange_call_parse r n p : one_exchange [EvTransport r n; EvParse p].

(** [get_products()] and [get_order_list(status, start, end)] with every
    optional argument left at its default, for concrete runs. *)
Definition plain_search : FetchOp :=
  OpProducts PyNone None PyNone PyNone PyNone PyNone PyNone PyNone PyNone
             PyNone PyNone.

Definition plain_order_list : FetchOp :=
  OpOrderList (PyStr "Payment Completed") (PyStr "2024-01-01 00:00:00")
              (PyStr "2024-01-31 23:59:59") PyNone PyNone PyNone PyNone.

(** ** Properties *)

(** *** The trace only grows *)

Lemma extends_ret {A} (a : A) : extends (ret a).
Proof. intros w. exists []. simpl. by rewrite app_nil_r. Qed.

Lemma extends_raise {A} (e : Exn) : extends (@raise A e).
Proof. intros w. exists []. simpl. by rewrite app_nil_r. Qed.

Lemma extends_lift {A} (r : Res A) : extends (lift r).
Proof. intros w. exists []. simpl. by rewrite app_nil_r. Qed.

Lemma extends_get_self : extends get_self.
Proof. intros w. exists []. simpl. by rewrite app_nil_r. Qed.

Lemma extends_put_self a : extends (put_self a).
Proof. intros w. exists []. simpl. by rewrite app_nil_r. Qed.

Lemma extends_call_parse_products p : extends (call_parse_products p).
Proof. intros w. by exists [EvParse p]. Qed.

Lemma extends_call_api_request r n : extends (call_api_request r n).
Proof. intros w. by exists [EvTransport r n]. Qed.

Lemma extends_bind {A B} (m : M A) (k : A -> M B) :
  extends m -> (forall a, extends (k a)) -> extends (bind m k).
Proof.
  intros Hm Hk w. unfold bind.
  destruct (Hm w) as [l Hl]. destruct (m w) as [[e|a] w1]; simpl in *.
  - by exists l.
  - destruct (Hk a w1) as [l' Hl']. exists (l ++ l')%list.
    by rewrite Hl', Hl, app_assoc.
Qed.

Lemma extends_if {A} (b : bool) (m1 m2 : M A) :
  extends m1 -> extends m2 -> extends (if b then m1 else m2).
Proof. by destruct b. Qed.

Create HintDb trace.

Hint Resolve extends_ret extends_raise extends_lift extends_get_self
  extends_put_self extends_call_parse_products extends_call_api_request
  extends_if : trace.

Ltac grows :=
  repeat first
    [ progress eauto with trace
    | apply extends_bind; [| intros ?] ].

Lemma extends_check_count response cf found nf :
  extends found -> extends (check_count response cf found nf).
Proof. intros H. unfold check_count. grows. Qed.

Lemma extends_parse_into_envelope response :
  extends (parse_into_envelope response).
Proof. unfold parse_into_envelope. grows. Qed.

Lemma app_cons_not_nil {A} (l r : list A) (x : A) :
  l = (l ++ x :: r)%list -> False.
Proof.
  intros H. apply (f_equal length) in H. rewrite length_app in H.
  simpl in H. lia.
Qed.

Lemma transport_calls_snoc w r n :
  transport_calls (mkWorld (self w) (trace w ++ [EvTransport r n]))
  = S (transport_calls w).
Proof.
  unfold transport_calls. simpl. rewrite List.filter_app, length_app.
  simpl. lia.
Qed.

(** *** A count of zero *)

(** The transport event of a [send] carries the request that was built. *)
Lemma send_request build response_name k w req nm rest :
  (forall r, extends (k r)) ->
  trace (send build response_name k w).2
    = (trace w ++ EvTransport req nm :: rest)%list ->
  build = inr req /\ nm = response_name.
Proof.
  intros Hk Ht. unfold send, bind, lift, call_api_request in *.
  destruct build as [e|request]; simpl in *.
  { exfalso. eapply app_cons_not_nil; eauto. }
  set (w1 := mkWorld (self w) (trace w ++ [EvTransport request response_name])) in *.
  destruct (api_request (transport_calls w) request response_name)
    as [e|response] eqn:E.
  - simpl in Ht. apply app_inv_head in Ht. split; congruence.
  - destruct (Hk response w1) as [l Hl].
    rewrite Hl in Ht. simpl in Ht. rewrite <- app_assoc in Ht.
    apply app_inv_head in Ht. simpl in Ht. split; congruence.
Qed.


Lemma get_affiliate_links_guard links link_type w :
  py_truthy (_tracking_id (self w)) = false ->
  get_affiliate_links links link_type w
  = (inl (InvalidTrackingIdException
            "The tracking id is required for affiliate links"), w).
Proof.
  intros H. unfold get_affiliate_links, bind, get_self. by rewrite H.
Qed.

Lemma get_affiliate_links_fetch links link_type w :
  py_truthy (_tracking_id (self w)) = true ->
  get_affiliate_links links link_type w
  = fetch (link_generate_request (self w) links link_type)
      "aliexpress_affiliate_link_generate_response" "total_result_count"
      (fun response =>
         let* promotion_links := lift (py_getattr response "promotion_links") in
         lift (py_getattr promotion_links "promotion_link"))
      (ProductsNotFoudException "Affiliate links not available") w.
Proof.
  intros H. unfold get_affiliate_links, bind, get_self. by rewrite H.
Qed.

(** *** The category cache *)

(** [get_categories] calls the transport exactly once, whatever comes
    back. *)
Lemma get_categories_trace w :
  trace (get_categories w).2
  = (trace w ++ [EvTransport (category_request (self w))
                             categories_response_name])%list.
Proof.
  unfold get_categories, check_count, bind, get_self, lift,
    call_api_request, put_self, ret, raise. simpl.
  destruct (api_request _ _ _) as [e|response]; simpl; [done|].
  destruct (py_getattr response "total_result_count") as [e|count];
    simpl; [done|].
  destruct (py_gt_zero count) as [e|[]]; simpl; try done.
  destruct (py_getattr response "categories") as [e|cats]; simpl; [done|].
  by destruct (py_getattr cats "category") as [e|category].
Qed.

Lemma get_categories_calls w :
  transport_calls (get_categories w).2 = S (transport_calls w).
Proof.
  rewrite <- (transport_calls_snoc w (category_request (self w))
                categories_response_name).
  unfold transport_calls. simpl. by rewrite get_categories_trace.
Qed.

Lemma refresh_cached w :
  py_truthy (categories (self w)) = true ->
  refresh_categories (PyBool true) w = (inr tt, w).
Proof.
  intros H. unfold refresh_categories, bind, get_self. simpl. by rewrite H.
Qed.

Lemma refresh_forced w :
  (refresh_categories (PyBool false) w).2 = (get_categories w).2.
Proof.
  unfold refresh_categories, bind, get_self. simpl.
  by destruct (get_categories w) as [[e|v] w1].
Qed.

Lemma get_parent_categories_world use_cache w :
  (get_parent_categories use_cache w).2 = (refresh_categories use_cache w).2.
Proof.
  unfold get_parent_categories, bind.
  by destruct (refresh_categories use_cache w) as [[e|[]] w1].
Qed.

Lemma get_child_categories_world parent_category_id use_cache w :
  (get_child_categories parent_category_id use_cache w).2
  = (refresh_categories use_cache w).2.
Proof.
  unfold get_child_categories, bind.
  by destruct (refresh_categories use_cache w) as [[e|[]] w1].
Qed.

(** A fetch that returns leaves its return value in the cache. *)
Lemma get_categories_populates w cats w' :
  get_categories w = (inr cats, w') -> categories (self w') = cats.
Proof.
  unfold get_categories, check_count, bind, get_self, lift,
    call_api_request, put_self, ret, raise. simpl.
  destruct (api_request _ _ _) as [e|response]; simpl; [done|].
  destruct (py_getattr response "total_result_count") as [e|count];
    simpl; [done|].
  destruct (py_gt_zero count) as [e|[]]; simpl; try done.
  destruct (py_getattr response "categories") as [e|holder]; simpl; [done|].
  destruct (py_getattr holder "category") as [e|category]; simpl; [done|].
  by intros [= <- <-].
Qed.

(** *** Claims *)


(** C2.  On a client whose tracking id is [None], [get_affiliate_links]
    raises [InvalidTrackingIdException] whatever the links and the link
    type, and leaves the world untouched: the transport has not been
    called. *)
Theorem affiliate_links_need_tracking_id
    (w : World) (links link_type : PyVal) :
  _tracking_id (self w) = PyNone ->
  get_affiliate_links links link_type w
  = (inl (InvalidTrackingIdException
            "The tracking id is required for affiliate links"), w)
  /\ transport_calls (get_affiliate_links links link_type w).2
     = transport_calls w.
Proof.
  intros H.
  assert (py_truthy (_tracking_id (self w)) = false) as Hf by by rewrite H.
  by rewrite get_affiliate_links_guard.
Qed.

(** C10.  [get_affiliate_links] tests the tracking id for truth: any
    falsy tracking id, the empty string as much as [None], makes it raise
    [InvalidTrackingIdException] with the world untouched, so before any
    transport call. *)
Theorem affiliate_links_reject_falsy_tracking_id
    (w : World) (links link_type : PyVal) :
  py_truthy (_tracking_id (self w)) = false ->
  get_affiliate_links links link_type w
  = (inl (InvalidTrackingIdException
            "The tracking id is required for affiliate links"), w)
  /\ transport_calls (get_affiliate_links links link_type w).2
     = transport_calls w.
Proof.
  intros H. by rewrite get_affiliate_links_guard.
Qed.

(** C3.  With a populated (truthy) category cache,
    [get_parent_categories] and [get_child_categories] called with
    [use_cache=True] do not call the transport; called with
    [use_cache=False] they call it exactly once, in any world. *)
Theorem cache_controls_refetch
    (w w' : World) (parent_category_id parent_category_id' : Z) :
  py_truthy (categories (self w)) = true ->
  transport_calls (get_parent_categories (PyBool true) w).2
    = transport_calls w
  /\ transport_calls
       (get_child_categories parent_category_id (PyBool true) w).2
     = transport_calls w
  /\ transport_calls (get_parent_categories (PyBool false) w').2
     = S (transport_calls w')
  /\ transport_calls
       (get_child_categories parent_category_id' (PyBool false) w').2
     = S (transport_calls w').
Proof.
  intros H.
  rewrite !get_parent_categories_world, !get_child_categories_world.
  rewrite refresh_cached by done. rewrite refresh_forced.
  rewrite get_categories_calls. done.
Qed.

(** C4.  A call of [get_categories] either returns, and then the cache
    is the category list of the envelope the transport answered with,
    which is also the value returned, the rest of the client being as
    before; or it raises, and then the client, the cache with it, is
    exactly as before the call. *)
Theorem get_categories_all_or_nothing (w : World) :
  match get_categories w with
  | (inr cats, w') =>
      self w' = set_categories cats (self w)
      /\ categories (self w') = cats
      /\ exists response holder,
           api_request (transport_calls w) (category_request (self w))
                       categories_response_name = inr response
           /\ py_getattr response "categories" = inr holder
           /\ py_getattr holder "category" = inr cats
  | (inl e, w') => self w' = self w
  end.
Proof.
  unfold get_categories, check_count, bind, get_self, lift,
    call_api_request, put_self, ret, raise, categories_response_name.
  simpl.
  destruct (api_request _ _ _) as [e|response] eqn:Ha; simpl; [done|].
  destruct (py_getattr response "total_result_count") as [e|count];
    simpl; [done|].
  destruct (py_gt_zero count) as [e|[]]; simpl; try done.
  destruct (py_getattr response "categories") as [e|holder] eqn:Hh;
    simpl; [done|].
  destruct (py_getattr holder "category") as [e|category] eqn:Hc;
    simpl; [done|].
  repeat split. by exists response, holder.
Qed.

(** *** smart_match_product *)

Lemma py_getattr_error o name e :
  py_getattr o name = inl e -> e = AttributeError name.
Proof.
  destruct o; simpl; try congruence.
  destruct (assoc_lookup name attrs); congruence.
Qed.

Lemma assoc_lookup_update_eq name v attrs :
  assoc_lookup name (assoc_update name v attrs) = Some v.
Proof.
  induction attrs as [|[k x] rest IH]; simpl.
  - by rewrite String.eqb_refl.
  - destruct (String.eqb k name) eqn:E; simpl; by rewrite E.
Qed.

Lemma assoc_lookup_update_ne name name' v attrs :
  name' <> name ->
  assoc_lookup name' (assoc_update name v attrs) = assoc_lookup name' attrs.
Proof.
  intros Hne. induction attrs as [|[k x] rest IH]; simpl.
  - destruct (String.eqb name name') eqn:E; [|done].
    apply String.eqb_eq in E. congruence.
  - destruct (String.eqb k name) eqn:E; simpl.
    + apply String.eqb_eq in E. subst k.
      destruct (String.eqb name name') eqn:E'; [|done].
      apply String.eqb_eq in E'. congruence.
    + by rewrite IH.
Qed.

Lemma py_getattr_hasattr o name v :
  py_getattr o name = inr v -> py_hasattr o name = true.
Proof.
  unfold py_getattr, py_hasattr. destruct o; try done.
  by destruct (assoc_lookup name attrs).
Qed.

Lemma py_hasattr_false o name :
  py_hasattr o name = false -> py_getattr o name = inl (AttributeError name).
Proof.
  unfold py_getattr, py_hasattr. destruct o; try done.
  by destruct (assoc_lookup name attrs).
Qed.

Lemma py_size_tuple_singleton v : py_size (PyTuple [v]) = S (py_size v + 0).
Proof. reflexivity. Qed.

Lemma singleton_tuple_differs v : PyTuple [v] <> v.
Proof.
  intros H. apply (f_equal py_size) in H.
  rewrite py_size_tuple_singleton in H. lia.
Qed.

Section SmartMatch.

Variables device_id app country device fields keywords page_no product_id
  site target_currency target_language tracking_id user : PyVal.

Local Abbreviation request_of me :=
  (smartmatch_request me device_id app country device fields keywords page_no
     product_id site target_currency target_language tracking_id user).

Local Abbreviation call :=
  (smart_match_product device_id app country device fields keywords page_no
     product_id site target_currency target_language tracking_id user).

Lemma smart_match_send w :
  call w
  = send (request_of (self w))
         "aliexpress_affiliate_product_smartmatch_response"
         (fun response =>
            if products_populated response then parse_into_envelope response
            else raise (ProductsNotFoudException
                          "No products found with current parameters")) w.
Proof. reflexivity. Qed.

Lemma smartmatch_request_app me request :
  request_of me = inr request -> field request "app" = Some (PyTuple [app]).
Proof.
  unfold smartmatch_request, bind_res.
  destruct (get_list_as_string fields) as [e|f]; [done|].
  intros [= <-]. unfold field, set_field. simpl.
  rewrite !lookup_insert_ne by done. apply lookup_insert_eq.
Qed.

(** C5, as the code has it.  Once the transport has answered,
    [smart_match_product] raises [ProductsNotFoudException], with nothing
    transformed, when the envelope has no products attribute or a falsy
    one, and in no other case unless [parse_products] itself raises it.
    When the products attribute is truthy, the method reads its product
    attribute and passes it through [parse_products]: a products attribute
    without a product attribute gives [AttributeError], an exception of
    the transform is passed on, and otherwise the envelope is returned
    with its products attribute replaced by the transformed records and
    every other attribute as received. *)
Theorem smart_match_outcome_by_products_field
    (w : World) (request : Request) (resp : PyVal) :
  request_of (self w) = inr request ->
  api_request (transport_calls w) request
    "aliexpress_affiliate_product_smartmatch_response" = inr resp ->
  ((py_hasattr resp "products" = false
    \/ exists products,
         py_getattr resp "products" = inr products
         /\ py_truthy products = false) ->
   call w
   = (inl (ProductsNotFoudException
             "No products found with current parameters"),
      mkWorld (self w)
        (trace w ++ [EvTransport request
                       "aliexpress_affiliate_product_smartmatch_response"])))
  /\ ((forall v msg, parse_products v <> inl (ProductsNotFoudException msg)) ->
      (exists msg, (call w).1 = inl (ProductsNotFoudException msg)) ->
      py_hasattr resp "products" = false
      \/ exists products,
           py_getattr resp "products" = inr products
           /\ py_truthy products = false)
  /\ (forall products,
        py_getattr resp "products" = inr products ->
        py_truthy products = true ->
        (py_hasattr products "product" = false ->
         (call w).1 = inl (AttributeError "product"))
        /\ (forall product e,
              py_getattr products "product" = inr product ->
              parse_products product = inl e ->
              (call w).1 = inl e)
        /\ (forall product parsed,
              py_getattr products "product" = inr product ->
              parse_products product = inr parsed ->
              exists envelope,
                (call w).1 = inr envelope
                /\ py_setattr resp "products" parsed = inr envelope
                /\ py_getattr envelope "products" = inr parsed
                /\ forall name,
                     name <> "products" ->
                     py_getattr envelope name = py_getattr resp name)).
Proof.
  intros Hreq Ha. rewrite smart_match_send.
  unfold send, bind, lift, call_api_request. rewrite Hreq. simpl. rewrite Ha.
  assert (forall products,
            py_getattr resp "products" = inr products ->
            py_truthy products = true ->
            products_populated resp = true) as Hpop.
  { intros products Hg Ht. unfold products_populated.
    by rewrite (py_getattr_hasattr _ _ _ Hg), Hg, Ht. }
  assert (forall products,
            py_getattr resp "products" = inr products ->
            forall w1,
              (parse_into_envelope resp w1).1
              = match py_getattr products "product" with
                | inl e => inl e
                | inr product =>
                    match parse_products product with
                    | inl e => inl e
                    | inr parsed => py_setattr resp "products" parsed
                    end
                end) as Hrun.
  { intros products Hg w1.
    unfold parse_into_envelope, bind, lift, call_parse_products.
    rewrite Hg. simpl.
    destruct (py_getattr products "product") as [e|product]; simpl; [done|].
    by destruct (parse_products product). }
  split; [|split].
  - intros [Hno|[products [Hg Hf]]]; unfold products_populated.
    + by rewrite Hno.
    + by rewrite Hg, Hf, andb_false_r.
  - intros Hparse [msg Hmsg].
    destruct (py_hasattr resp "products") eqn:Hh; [|by left]. right.
    destruct (py_getattr resp "products") as [e|products] eqn:Hg.
    { revert Hh Hg. unfold py_hasattr, py_getattr. destruct resp; try done.
      by destruct (assoc_lookup _ _). }
    exists products. split; [done|].
    destruct (py_truthy products) eqn:Ht; [|done]. exfalso.
    rewrite (Hpop _ eq_refl Ht) in Hmsg. rewrite (Hrun _ eq_refl) in Hmsg.
    destruct (py_getattr products "product") as [e|product] eqn:Hp.
    { apply py_getattr_error in Hp as ->. done. }
    destruct (parse_products product) as [e|parsed] eqn:Hpp.
    { injection Hmsg as ->. by eapply Hparse. }
    by destruct resp.
  - intros products Hg Ht. rewrite (Hpop _ Hg Ht), (Hrun _ Hg).
    split; [|split].
    + intros Hno. by rewrite (py_hasattr_false _ _ Hno).
    + intros product e Hp Hpp. by rewrite Hp, Hpp.
    + intros product parsed Hp Hpp. rewrite Hp, Hpp.
      destruct resp as [| | | | | |attrs]; try done. simpl.
      eexists. split; [done|]. split; [done|]. split.
      * unfold py_getattr. by rewrite assoc_lookup_update_eq.
      * intros name Hne. unfold py_getattr. by rewrite assoc_lookup_update_ne.
Qed.

(** C9.  The request that [smart_match_product] hands to the transport has
    as its app field the one-element tuple holding the app argument, which
    is never the app argument itself. *)
Theorem smart_match_app_is_tuple
    (w : World) (req : Request) (name : string) (rest : list Event) :
  trace (call w).2 = (trace w ++ EvTransport req name :: rest)%list ->
  field req "app" = Some (PyTuple [app])
  /\ field req "app" <> Some app.
Proof.
  intros Ht. rewrite smart_match_send in Ht.
  apply send_request in Ht as [Hreq _].
  - apply smartmatch_request_app in Hreq. rewrite Hreq. split; [done|].
    intros [= H]. by apply singleton_tuple_differs in H.
  - intros r. apply extends_if; [apply extends_parse_into_envelope|].
    grows.
Qed.

End SmartMatch.

(** *** get_hotproducts and get_products *)

Section Query.

Variables category_ids fields keywords max_sale_price min_sale_price page_no
  page_size platform_product_type ship_to_country sort : PyVal.

Local Abbreviation request_of cls me delivery_days :=
  (query_request cls me category_ids delivery_days fields keywords
     max_sale_price min_sale_price page_no page_size platform_product_type
     ship_to_country sort).

Local Abbreviation hotproducts delivery_days :=
  (get_hotproducts category_ids delivery_days fields keywords max_sale_price
     min_sale_price page_no page_size platform_product_type ship_to_country
     sort).

Local Abbreviation products delivery_days :=
  (get_products category_ids delivery_days fields keywords max_sale_price
     min_sale_price page_no page_size platform_product_type ship_to_country
     sort).

Lemma query_request_delivery_days cls me delivery_days request :
  request_of cls me delivery_days = inr request ->
  field request "delivery_days" = Some (PyStr (py_str_opt_int delivery_days)).
Proof.
  unfold query_request, bind_res.
  destruct (get_list_as_string category_ids) as [e|c]; [done|].
  destruct (get_list_as_string fields) as [e|f]; [done|].
  intros [= <-]. unfold field, set_field. simpl.
  rewrite !lookup_insert_ne by done. apply lookup_insert_eq.
Qed.

(** The scalar options are assigned as they come, [None] included. *)
Lemma query_request_keywords cls me delivery_days request :
  request_of cls me delivery_days = inr request ->
  field request "keywords" = Some keywords.
Proof.
  unfold query_request, bind_res.
  destruct (get_list_as_string category_ids) as [e|c]; [done|].
  destruct (get_list_as_string fields) as [e|f]; [done|].
  intros [= <-]. unfold field, set_field. simpl.
  rewrite !lookup_insert_ne by done. apply lookup_insert_eq.
Qed.

Lemma query_sent cls response_name delivery_days w req name rest :
  trace (query cls response_name category_ids delivery_days fields keywords
           max_sale_price min_sale_price page_no page_size
           platform_product_type ship_to_country sort w).2
    = (trace w ++ EvTransport req name :: rest)%list ->
  request_of cls (self w) delivery_days = inr req.
Proof.
  intros Ht.
  eapply (send_request (request_of cls (self w) delivery_days)) in Ht
    as [Hreq _]; [done|].
  intros r. apply extends_check_count, extends_parse_into_envelope.
Qed.

(** C6, what the code does.  The request that [get_hotproducts] or
    [get_products] hands to the transport has as its delivery_days field
    the text of the argument: for an integer its decimal form, and for
    [None] the four-letter string, not [None]. *)
Theorem delivery_days_is_sent_as_text
    (delivery_days : option Z) (w : World)
    (req : Request) (name : string) (rest : list Event) :
  trace (hotproducts delivery_days w).2
    = (trace w ++ EvTransport req name :: rest)%list
  \/ trace (products delivery_days w).2
     = (trace w ++ EvTransport req name :: rest)%list ->
  field req "delivery_days"
  = Some (PyStr match delivery_days with
                | None => "None"
                | Some z => pretty z
                end)
  /\ field req "delivery_days" <> Some PyNone.
Proof.
  intros [Ht|Ht]; apply query_sent in Ht;
    apply query_request_delivery_days in Ht; rewrite Ht;
    (split; [by destruct delivery_days | done]).
Qed.

End Query.

(** *** get_affiliate_links *)

(** C7.  On a client with a tracking id, when the transport answers with
    a result count of 1 and one promotion link, [get_affiliate_links]
    returns the one-element list holding that link, as it came. *)
Theorem single_link_passed_through
    (w : World) (links link_type : PyVal) (request : Request)
    (resp holder link : PyVal) :
  py_truthy (_tracking_id (self w)) = true ->
  link_generate_request (self w) links link_type = inr request ->
  api_request (transport_calls w) request
    "aliexpress_affiliate_link_generate_response" = inr resp ->
  py_getattr resp "total_result_count" = inr (PyInt 1) ->
  py_getattr resp "promotion_links" = inr holder ->
  py_getattr holder "promotion_link" = inr (PyList [link]) ->
  (get_affiliate_links links link_type w).1 = inr (PyList [link])
  /\ parse_calls (get_affiliate_links links link_type w).2 = parse_calls w.
Proof.
  intros Htid Hreq Ha Hc Hh Hl.
  rewrite get_affiliate_links_fetch by done.
  unfold fetch, send, check_count, bind, lift, call_api_request.
  rewrite Hreq. simpl. rewrite Ha, Hc. simpl. rewrite Hh. simpl.
  rewrite Hl. simpl. split; [done|].
  unfold parse_calls. simpl. rewrite List.filter_app, length_app. simpl. lia.
Qed.

(** *** get_child_categories *)

Lemma is_child_of_spec parent_category_id c :
  is_child_of parent_category_id c = true
  <-> py_getattr c "parent_category_id" = inr (PyInt parent_category_id).
Proof.
  unfold is_child_of.
  destruct (py_getattr c "parent_category_id") as [e|[]]; try (split; done).
  rewrite Z.eqb_eq. split; congruence.
Qed.

(** C8.  With a populated cache, [get_child_categories] returns, in cache
    order, exactly the cached categories whose parent_category_id
    attribute is the given id, and leaves the world as it was. *)
Theorem child_categories_are_the_matching_ones
    (w : World) (cats : list PyVal) (parent_category_id : Z) :
  categories (self w) = PyList cats ->
  cats <> [] ->
  get_child_categories parent_category_id (PyBool true) w
  = (inr (PyList (List.filter (is_child_of parent_category_id) cats)), w)
  /\ forall c,
       In c (List.filter (is_child_of parent_category_id) cats)
       <-> In c cats
           /\ py_getattr c "parent_category_id" = inr (PyInt parent_category_id).
Proof.
  intros Hc Hne. split.
  - unfold get_child_categories, bind. rewrite refresh_cached.
    + unfold get_self, lift. simpl. by rewrite Hc.
    + rewrite Hc. by destruct cats.
  - intros c. by rewrite List.filter_In, is_child_of_spec.
Qed.

(** ** Further properties of the methods *)

Lemma send_run build response_name k w :
  send build response_name k w
  = match build with
    | inl e => (inl e, w)
    | inr request =>
        let w1 := mkWorld (self w)
                    (trace w ++ [EvTransport request response_name]) in
        match api_request (transport_calls w) request response_name with
        | inl e => (inl e, w1)
        | inr response => k response w1
        end
    end.
Proof.
  unfold send, bind, lift, call_api_request. destruct build; simpl; [done|].
  by destruct (api_request _ _ _).
Qed.

Lemma run_op_guard op w :
  guard_ok op (self w) = false ->
  run_op op w
  = (inl (InvalidTrackingIdException
            "The tracking id is required for affiliate links"), w).
Proof.
  destruct op; simpl; try done. apply get_affiliate_links_guard.
Qed.

Lemma run_op_fetch op w :
  guard_ok op (self w) = true ->
  run_op op w
  = fetch (built op (self w)) (response_name_of op) (count_field op)
          (found op (self w)) (not_found op) w.
Proof.
  destruct op; simpl; try done. apply get_affiliate_links_fetch.
Qed.

Lemma extends_found op me r : extends (found op me r).
Proof.
  destruct op; simpl; try apply extends_parse_into_envelope; grows.
Qed.

Lemma refresh_run use_cache w :
  refresh_categories use_cache w
  = if negb (py_truthy use_cache) || negb (py_truthy (categories (self w)))
    then match get_categories w with
         | (inl e, w1) => (inl e, w1)
         | (inr _, w1) => (inr tt, w1)
         end
    else (inr tt, w).
Proof.
  unfold refresh_categories, bind, get_self. simpl.
  destruct (negb (py_truthy use_cache) || _); [|done].
  by destruct (get_categories w) as [[e|v] w1].
Qed.

Lemma get_parent_categories_run use_cache w :
  get_parent_categories use_cache w
  = match refresh_categories use_cache w with
    | (inl e, w1) => (inl e, w1)
    | (inr _, w1) => (filter_parent_categories (categories (self w1)), w1)
    end.
Proof.
  unfold get_parent_categories, bind.
  by destruct (refresh_categories use_cache w) as [[e|[]] w1].
Qed.

Lemma get_child_categories_run parent_category_id use_cache w :
  get_child_categories parent_category_id use_cache w
  = match refresh_categories use_cache w with
    | (inl e, w1) => (inl e, w1)
    | (inr _, w1) =>
        (filter_child_categories (categories (self w1)) parent_category_id, w1)
    end.
Proof.
  unfold get_child_categories, bind.
  by destruct (refresh_categories use_cache w) as [[e|[]] w1].
Qed.

(** *** Transport failures *)

Lemma send_transport_error build response_name k w req nm rest e :
  (forall r, extends (k r)) ->
  trace (send build response_name k w).2
    = (trace w ++ EvTransport req nm :: rest)%list ->
  api_request (transport_calls w) req nm = inl e ->
  send build response_name k w
  = (inl e, mkWorld (self w) (trace w ++ [EvTransport req nm])).
Proof.
  intros Hk Ht Ha. apply send_request in Ht as [-> ->]; [|done].
  rewrite send_run. simpl. by rewrite Ha.
Qed.

Lemma run_op_transport_error op w req name rest e :
  trace (run_op op w).2 = (trace w ++ EvTransport req name :: rest)%list ->
  api_request (transport_calls w) req name = inl e ->
  run_op op w = (inl e, mkWorld (self w) (trace w ++ [EvTransport req name])).
Proof.
  intros Ht Ha. destruct (guard_ok op (self w)) eqn:Hg.
  - rewrite run_op_fetch in * by done.
    eapply send_transport_error; eauto.
    intros r. apply extends_check_count, extends_found.
  - rewrite run_op_guard in Ht by done.
    exfalso. eapply app_cons_not_nil; eauto.
Qed.

(** X1.  No method catches or retries: when the transport call a method
    makes raises, the method raises that very exception, the client is as
    it was, and the failed call is the only thing that happened. *)
Theorem transport_error_propagates
    (m : Method) (w : World) (req : Request) (name : string)
    (rest : list Event) (e : Exn) :
  trace (run_method m w).2 = (trace w ++ EvTransport req name :: rest)%list ->
  api_request (transport_calls w) req name = inl e ->
  run_method m w
  = (inl e, mkWorld (self w) (trace w ++ [EvTransport req name])).
Proof.
  intros Ht Ha. destruct m; simpl in *.
  - by eapply run_op_transport_error.
  - rewrite smart_match_send in *. eapply send_transport_error; eauto.
    intros r. apply extends_if; [apply extends_parse_into_envelope|grows].
  - rewrite get_parent_categories_world in Ht.
    rewrite get_parent_categories_run. rewrite refresh_run in *.
    destruct (negb (py_truthy use_cache) || _).
    + assert (trace (get_categories w).2
              = (trace w ++ EvTransport req name :: rest)%list) as Ht'.
      { by destruct (get_categories w) as [[e'|v] w1]. }
      pose proof (run_op_transport_error OpCategories w req name rest e
                    Ht' Ha) as Hr.
      simpl in Hr. by rewrite Hr.
    + exfalso. eapply app_cons_not_nil; eauto.
  - rewrite get_child_categories_world in Ht.
    rewrite get_child_categories_run. rewrite refresh_run in *.
    destruct (negb (py_truthy use_cache) || _).
    + assert (trace (get_categories w).2
              = (trace w ++ EvTransport req name :: rest)%list) as Ht'.
      { by destruct (get_categories w) as [[e'|v] w1]. }
      pose proof (run_op_transport_error OpCategories w req name rest e
                    Ht' Ha) as Hr.
      simpl in Hr. by rewrite Hr.
    + exfalso. eapply app_cons_not_nil; eauto.
Qed.

(** *** One exchange per invocation *)

Ltac split_matches :=
  repeat (simpl;
          match goal with
          | |- context [match ?x with _ => _ end] => destruct x
          end);
  simpl.

Lemma parse_into_envelope_adds r w :
  trace (parse_into_envelope r w).2 = trace w
  \/ exists p, trace (parse_into_envelope r w).2 = (trace w ++ [EvParse p])%list.
Proof.
  unfold parse_into_envelope, bind, lift, call_parse_products, py_setattr.
  split_matches; eauto.
Qed.

Lemma found_adds op me r w :
  trace (found op me r w).2 = trace w
  \/ exists p, trace (found op me r w).2 = (trace w ++ [EvParse p])%list.
Proof.
  destruct op; try apply parse_into_envelope_adds;
    unfold found, bind, lift, call_parse_products, put_self, get_self, ret;
    split_matches; eauto.
Qed.

Lemma check_count_adds response cf (body : M PyVal) nf w :
  (forall w0, trace (body w0).2 = trace w0
              \/ exists p, trace (body w0).2 = (trace w0 ++ [EvParse p])%list) ->
  trace (check_count response cf body nf w).2 = trace w
  \/ exists p,
       trace (check_count response cf body nf w).2 = (trace w ++ [EvParse p])%list.
Proof.
  intros Hb. unfold check_count, bind, lift, raise.
  destruct (py_getattr response cf) as [e|count]; simpl; [by left|].
  destruct (py_gt_zero count) as [e|[]]; simpl; [by left| |by left].
  apply Hb.
Qed.

Lemma send_one_exchange build response_name k w :
  (forall r w0, trace (k r w0).2 = trace w0
                \/ exists p, trace (k r w0).2 = (trace w0 ++ [EvParse p])%list) ->
  exists l, trace (send build response_name k w).2 = (trace w ++ l)%list
            /\ one_exchange l.
Proof.
  intros Hk. rewrite send_run. destruct build as [e|request]; simpl.
  { exists []. rewrite app_nil_r. split; [done|constructor]. }
  destruct (api_request _ _ _) as [e|response]; simpl.
  { eexists. split; [done|constructor]. }
  destruct (Hk response
              (mkWorld (self w) (trace w ++ [EvTransport request response_name])))
    as [H|[p H]]; rewrite H; simpl.
  - eexists. split; [done|constructor].
  - rewrite <- app_assoc. eexists. split; [done|]. simpl. constructor.
Qed.

Lemma run_op_one_exchange op w :
  exists l, trace (run_op op w).2 = (trace w ++ l)%list /\ one_exchange l.
Proof.
  destruct (guard_ok op (self w)) eqn:Hg.
  - rewrite run_op_fetch by done. apply send_one_exchange.
    intros r w0. apply check_count_adds. intros w1. apply found_adds.
  - rewrite run_op_guard by done. exists []. rewrite app_nil_r.
    split; [done|constructor].
Qed.

Lemma refresh_one_exchange use_cache w :
  exists l, trace (refresh_categories use_cache w).2 = (trace w ++ l)%list
            /\ one_exchange l.
Proof.
  rewrite refresh_run. destruct (negb (py_truthy use_cache) || _).
  - exists [EvTransport (category_request (self w)) categories_response_name].
    split; [|constructor].
    rewrite <- get_categories_trace. by destruct (get_categories w) as [[e|v] w1].
  - exists []. rewrite app_nil_r. split; [done|constructor].
Qed.

(** X2.  One invocation of any method adds to the trace nothing, or one
    transport call, or one transport call followed by one run of the
    product transform: never a second request, never a transform without
    a request before it. *)
Theorem one_exchange_per_invocation (m : Method) (w : World) :
  exists l, trace (run_method m w).2 = (trace w ++ l)%list /\ one_exchange l.
Proof.
  destruct m; simpl.
  - apply run_op_one_exchange.
  - rewrite smart_match_send. apply send_one_exchange. intros r w0.
    destruct (products_populated r); [apply parse_into_envelope_adds|by left].
  - rewrite get_parent_categories_world. apply refresh_one_exchange.
  - rewrite get_child_categories_world. apply refresh_one_exchange.
Qed.

(** *** The client record *)

Lemma same_config_refl a : same_config a a.
Proof. by repeat split. Qed.

Lemma same_config_set_categories c a : same_config (set_categories c a) a.
Proof. by repeat split. Qed.

Lemma send_self (P : AliexpressApi -> Prop) build response_name k w :
  P (self w) ->
  (forall r w1, self w1 = self w -> P (self (k r w1).2)) ->
  P (self (send build response_name k w).2).
Proof.
  intros Hw Hk. rewrite send_run. destruct build as [e|request]; simpl; [done|].
  destruct (api_request _ _ _) as [e|response]; simpl; [done|]. by apply Hk.
Qed.

Lemma check_count_self (P : AliexpressApi -> Prop) response cf
    (body : M PyVal) nf w :
  P (self w) -> P (self (body w).2) ->
  P (self (check_count response cf body nf w).2).
Proof.
  intros Hw Hb. unfold check_count, bind, lift, raise.
  destruct (py_getattr response cf) as [e|count]; simpl; [done|].
  by destruct (py_gt_zero count) as [e|[]].
Qed.

Lemma parse_into_envelope_self r w : self (parse_into_envelope r w).2 = self w.
Proof.
  unfold parse_into_envelope, bind, lift, call_parse_products, py_setattr.
  split_matches; eauto.
Qed.

Lemma found_self op me r w :
  op <> OpCategories -> self (found op me r w).2 = self w.
Proof.
  intros Hop.
  destruct op; try done; try apply parse_into_envelope_self;
    unfold found, bind, lift, call_parse_products, ret;
    split_matches; eauto.
Qed.

Lemma found_config op me r w :
  self w = me -> same_config (self (found op me r w).2) me.
Proof.
  intros <-.
  destruct op;
    try (rewrite found_self by done; apply same_config_refl).
  unfold found, bind, lift, put_self, get_self, ret.
  split_matches; auto using same_config_refl, same_config_set_categories.
Qed.

Lemma run_op_config op w : same_config (self (run_op op w).2) (self w).
Proof.
  destruct (guard_ok op (self w)) eqn:Hg.
  - rewrite run_op_fetch by done. unfold fetch.
    apply (send_self (fun a => same_config a (self w)));
      [apply same_config_refl|].
    intros r w1 Hw1.
    apply (check_count_self (fun a => same_config a (self w))).
    + rewrite Hw1. apply same_config_refl.
    + by apply found_config.
  - rewrite run_op_guard by done. apply same_config_refl.
Qed.

Lemma run_op_self op w : op <> OpCategories -> self (run_op op w).2 = self w.
Proof.
  intros Hop. destruct (guard_ok op (self w)) eqn:Hg.
  - rewrite run_op_fetch by done. unfold fetch.
    apply (send_self (fun a => a = self w)); [done|].
    intros r w1 Hw1. apply (check_count_self (fun a => a = self w)); [done|].
    by rewrite found_self.
  - by rewrite run_op_guard.
Qed.

Lemma refresh_config use_cache w :
  same_config (self (refresh_categories use_cache w).2) (self w).
Proof.
  rewrite refresh_run. destruct (negb (py_truthy use_cache) || _).
  - pose proof (run_op_config OpCategories w) as H. simpl in H.
    by destruct (get_categories w) as [[e|v] w1].
  - apply same_config_refl.
Qed.

(** X3.  No method changes the credentials or the defaults of the client
    (key, secret, tracking id, language, currency, app signature); and the
    methods other than [get_categories] and the two category accessors
    leave the whole client, the cache included, as it was. *)
Theorem client_configuration_is_kept (m : Method) (w : World) :
  same_config (self (run_method m w).2) (self w)
  /\ (touches_cache m = false -> self (run_method m w).2 = self w).
Proof.
  destruct m; simpl.
  - split; [apply run_op_config|].
    intros Hc. apply run_op_self. by intros ->.
  - assert (self (smart_match_product device_id app country device fields
                    keywords page_no product_id site target_currency
                    target_language tracking_id user w).2 = self w) as H.
    { rewrite smart_match_send.
      apply (send_self (fun a => a = self w)); [done|].
      intros r w1 Hw1.
      destruct (products_populated r);
        [by rewrite parse_into_envelope_self|done]. }
    rewrite H. split; [apply same_config_refl|done].
  - rewrite get_parent_categories_world. split; [apply refresh_config|done].
  - rewrite get_child_categories_world. split; [apply refresh_config|done].
Qed.

(** *** What a return tells *)

(** X4.  A fetch-class operation returns a value only if the transport
    answered its request with an envelope whose count compares greater
    than zero; with any other answer it raises. *)
Theorem returns_only_on_positive_count
    (op : FetchOp) (w w' : World) (v : PyVal) :
  run_op op w = (inr v, w') ->
  exists req resp count,
    built op (self w) = inr req
    /\ api_request (transport_calls w) req (response_name_of op) = inr resp
    /\ py_getattr resp (count_field op) = inr count
    /\ py_gt_zero count = inr true.
Proof.
  destruct (guard_ok op (self w)) eqn:Hg.
  - rewrite run_op_fetch by done. unfold fetch. rewrite send_run.
    destruct (built op (self w)) as [e|req]; [done|]. simpl.
    destruct (api_request _ _ _) as [e|resp] eqn:Ha; [done|].
    unfold check_count, bind, lift, raise.
    destruct (py_getattr resp (count_field op)) as [e|count] eqn:Hc;
      simpl; [done|].
    destruct (py_gt_zero count) as [e|[]] eqn:Hp; simpl; try done.
    intros _. by exists req, resp, count.
  - by rewrite run_op_guard.
Qed.

(** *** A positive count *)

Lemma fetch_positive build response_name cf body nf w req resp n :
  build = inr req ->
  api_request (transport_calls w) req response_name = inr resp ->
  py_getattr resp cf = inr (PyInt n) ->
  (0 < n)%Z ->
  fetch build response_name cf body nf w
  = body resp (mkWorld (self w) (trace w ++ [EvTransport req response_name])).
Proof.
  intros -> Ha Hc Hn. unfold fetch. rewrite send_run. simpl. rewrite Ha.
  unfold check_count, bind, lift. rewrite Hc. simpl.
  by rewrite (proj2 (Z.ltb_lt 0 n) Hn).
Qed.

(** X5.  With a positive count, [get_products_details] returns whatever
    [parse_products] makes of [response.products.product], an exception
    of the transform included, after one transport call and one run of
    the transform. *)
Theorem products_details_returns_parsed
    (product_ids fields country : PyVal) (w : World) (req : Request)
    (resp products product : PyVal) (n : Z) :
  productdetail_request (self w) product_ids fields country = inr req ->
  api_request (transport_calls w) req
    "aliexpress_affiliate_productdetail_get_response" = inr resp ->
  py_getattr resp "current_record_count" = inr (PyInt n) ->
  (0 < n)%Z ->
  py_getattr resp "products" = inr products ->
  py_getattr products "product" = inr product ->
  get_products_details product_ids fields country w
  = (parse_products product,
     mkWorld (self w)
       (trace w ++ [EvTransport req
                      "aliexpress_affiliate_productdetail_get_response";
                    EvParse product])).
Proof.
  intros Hreq Ha Hc Hn Hps Hp.
  change (get_products_details product_ids fields country w)
    with (run_op (OpProductsDetails product_ids fields country) w).
  rewrite run_op_fetch by done. simpl.
  erewrite fetch_positive by eauto.
  unfold found, bind, lift, call_parse_products. rewrite Hps. simpl.
  rewrite Hp. simpl. by rewrite <- app_assoc.
Qed.

(** X6.  With a positive count and a transform that succeeds, the two
    searches return the envelope they received with its products
    attribute replaced by the transformed records and every other
    attribute as it was. *)
Theorem search_returns_envelope
    (op : FetchOp) (w : World) (req : Request)
    (resp products product parsed : PyVal) (n : Z) :
  is_search op = true ->
  built op (self w) = inr req ->
  api_request (transport_calls w) req (response_name_of op) = inr resp ->
  py_getattr resp "current_record_count" = inr (PyInt n) ->
  (0 < n)%Z ->
  py_getattr resp "products" = inr products ->
  py_getattr products "product" = inr product ->
  parse_products product = inr parsed ->
  exists envelope,
    (run_op op w).1 = inr envelope
    /\ py_getattr envelope "products" = inr parsed
    /\ forall name, name <> "products" ->
                    py_getattr envelope name = py_getattr resp name.
Proof.
  intros Hs Hreq Ha Hc Hn Hps Hp Hpp.
  assert (guard_ok op (self w) = true) as Hg by by destruct op.
  assert (count_field op = "current_record_count") as Hcf by by destruct op.
  assert (found op (self w) = parse_into_envelope) as Hf by by destruct op.
  rewrite run_op_fetch by done. rewrite Hcf, Hf.
  erewrite fetch_positive by eauto.
  unfold parse_into_envelope, bind, lift, call_parse_products.
  rewrite Hps. simpl. rewrite Hp. simpl. rewrite Hpp. simpl.
  destruct resp as [| | | | | |attrs]; try done. simpl.
  eexists. split; [done|]. split.
  - unfold py_getattr. by rewrite assoc_lookup_update_eq.
  - intros name Hne. unfold py_getattr. by rewrite assoc_lookup_update_ne.
Qed.

(** X7.  With a positive count, [get_order_list] returns the envelope
    exactly as the transport gave it; the product transform is not run. *)
Theorem order_list_returns_envelope
    (status start_time end_time fields locale_site page_no page_size : PyVal)
    (w : World) (req : Request) (resp : PyVal) (n : Z) :
  order_list_request (self w) status start_time end_time fields locale_site
    page_no page_size = inr req ->
  api_request (transport_calls w) req
    "aliexpress_affiliate_order_list_response" = inr resp ->
  py_getattr resp "current_record_count" = inr (PyInt n) ->
  (0 < n)%Z ->
  get_order_list status start_time end_time fields locale_site page_no
    page_size w
  = (inr resp,
     mkWorld (self w)
       (trace w ++ [EvTransport req
                      "aliexpress_affiliate_order_list_response"])).
Proof.
  intros Hreq Ha Hc Hn.
  change (get_order_list status start_time end_time fields locale_site
            page_no page_size w)
    with (fetch (order_list_request (self w) status start_time end_time fields
                   locale_site page_no page_size)
            "aliexpress_affiliate_order_list_response" "current_record_count"
            (fun response => ret response)
            (OrdersNotFoundException
               "No orders found for the specified parameters") w).
  by erewrite fetch_positive by eauto.
Qed.

(** X8.  With a tracking id and any positive count, [get_affiliate_links]
    returns [response.promotion_links.promotion_link] as received: the
    count is only compared with zero, never with the number of links. *)
Theorem links_returned_as_received
    (links link_type : PyVal) (w : World) (req : Request)
    (resp holder received : PyVal) (n : Z) :
  py_truthy (_tracking_id (self w)) = true ->
  link_generate_request (self w) links link_type = inr req ->
  api_request (transport_calls w) req
    "aliexpress_affiliate_link_generate_response" = inr resp ->
  py_getattr resp "total_result_count" = inr (PyInt n) ->
  (0 < n)%Z ->
  py_getattr resp "promotion_links" = inr holder ->
  py_getattr holder "promotion_link" = inr received ->
  get_affiliate_links links link_type w
  = (inr received,
     mkWorld (self w)
       (trace w ++ [EvTransport req
                      "aliexpress_affiliate_link_generate_response"])).
Proof.
  intros Htid Hreq Ha Hc Hn Hh Hr.
  rewrite get_affiliate_links_fetch by done.
  erewrite fetch_positive by eauto.
  unfold bind, lift. rewrite Hh. simpl. by rewrite Hr.
Qed.

(** *** Arguments that do not make a request *)

(** X9.  When the arguments of a fetch-class operation are refused while
    the request is built, the operation raises that exception and the
    world is untouched: the transport is not called. *)
Theorem refused_arguments_never_reach_transport
    (op : FetchOp) (w : World) (e : Exn) :
  guard_ok op (self w) = true ->
  built op (self w) = inl e ->
  run_op op w = (inl e, w).
Proof.
  intros Hg Hb. rewrite run_op_fetch by done. unfold fetch.
  rewrite send_run. by rewrite Hb.
Qed.

(** *** More on the category cache *)

Lemma refresh_fetches use_cache w :
  negb (py_truthy use_cache) || negb (py_truthy (categories (self w))) = true ->
  (refresh_categories use_cache w).2 = (get_categories w).2.
Proof.
  intros H. rewrite refresh_run, H. by destruct (get_categories w) as [[e|v] w1].
Qed.

Lemma get_categories_raise_keeps w e w' :
  get_categories w = (inl e, w') -> self w' = self w.
Proof.
  unfold get_categories, check_count, bind, get_self, lift,
    call_api_request, put_self, ret, raise. simpl.
  destruct (api_request _ _ _) as [e0|response]; simpl; [by intros [= _ <-]|].
  destruct (py_getattr response "total_result_count") as [e0|count];
    simpl; [by intros [= _ <-]|].
  destruct (py_gt_zero count) as [e0|[]]; simpl; try by intros [= _ <-].
  destruct (py_getattr response "categories") as [e0|holder]; simpl;
    [by intros [= _ <-]|].
  destruct (py_getattr holder "category") as [e0|category]; simpl;
    [by intros [= _ <-]|done].
Qed.

(** X10.  While the cache is empty ([None] on a new client, or an empty
    list), both accessors fetch the categories, with exactly one
    transport call, whatever the use_cache flag says. *)
Theorem empty_cache_always_fetches
    (w : World) (use_cache : PyVal) (parent_category_id : Z) :
  py_truthy (categories (self w)) = false ->
  transport_calls (get_parent_categories use_cache w).2
    = S (transport_calls w)
  /\ transport_calls (get_child_categories parent_category_id use_cache w).2
     = S (transport_calls w).
Proof.
  intros H.
  rewrite get_parent_categories_world, get_child_categories_world.
  rewrite refresh_fetches by (rewrite H; apply orb_true_r).
  by rewrite get_categories_calls.
Qed.

(** X11.  When the fetch behind a forced refresh raises, the accessors
    raise the same exception and the client keeps the categories it had
    cached before: a failed refresh does not clear the cache. *)
Theorem failed_refresh_keeps_cache
    (w w1 : World) (e : Exn) (parent_category_id : Z) :
  get_categories w = (inl e, w1) ->
  get_parent_categories (PyBool false) w = (inl e, w1)
  /\ get_child_categories parent_category_id (PyBool false) w = (inl e, w1)
  /\ self w1 = self w.
Proof.
  intros H. rewrite get_parent_categories_run, get_child_categories_run.
  rewrite refresh_run. simpl. rewrite H.
  repeat split. by eapply get_categories_raise_keeps.
Qed.

(** X12.  After a fetch that returned a non-empty category list, the
    accessors called with [use_cache=True] answer from that list: they
    return the parent filter, respectively the child filter, of exactly
    the list the fetch returned, and leave the world as the fetch left
    it, so that the whole sequence costs one transport call. *)
Theorem accessors_answer_from_last_fetch
    (w w1 : World) (cats : PyVal) (parent_category_id : Z) :
  get_categories w = (inr cats, w1) ->
  py_truthy cats = true ->
  get_parent_categories (PyBool true) w1
  = (filter_parent_categories cats, w1)
  /\ get_child_categories parent_category_id (PyBool true) w1
     = (filter_child_categories cats parent_category_id, w1)
  /\ transport_calls w1 = S (transport_calls w).
Proof.
  intros H Ht. pose proof (get_categories_populates _ _ _ H) as Hc.
  rewrite get_parent_categories_run, get_child_categories_run.
  rewrite refresh_cached by by rewrite Hc. rewrite Hc.
  repeat split.
  rewrite <- (get_categories_calls w). by rewrite H.
Qed.

(** *** What the requests carry *)

Ltac read_field :=
  unfold field, set_field; simpl;
  rewrite ?lookup_insert_ne by done; apply lookup_insert_eq.

(** X13.  Every fetch-class request carries the client's app signature;
    the product lookup and the two searches also carry the client's
    tracking id, currency and language, and link generation the client's
    tracking id. *)
Theorem requests_carry_client_defaults
    (op : FetchOp) (me : AliexpressApi) (req : Request) :
  built op me = inr req ->
  field req "app_signature" = Some (_app_signature me)
  /\ match op with
     | OpProductsDetails _ _ _
     | OpHotproducts _ _ _ _ _ _ _ _ _ _ _
     | OpProducts _ _ _ _ _ _ _ _ _ _ _ =>
         field req "tracking_id" = Some (_tracking_id me)
         /\ field req "target_currency" = Some (_currency me)
         /\ field req "target_language" = Some (_language me)
     | OpAffiliateLinks _ _ =>
         field req "tracking_id" = Some (_tracking_id me)
     | _ => True
     end.
Proof.
  destruct op; simpl;
    unfold productdetail_request, link_generate_request, query_request,
      category_request, order_list_request, bind_res;
    repeat match goal with
           | |- context [match ?x with inl _ => _ | inr _ => _ end] =>
               destruct x; [done|]
           end;
    intros [= <-]; repeat split; read_field.
Qed.

(** X14.  [smart_match_product] takes tracking id, currency and language
    from its own arguments: the request it sends carries those, whatever
    the client was configured with, and of the client only the app
    signature. *)
Theorem smart_match_uses_caller_targeting
    (device_id app country device fields keywords page_no product_id site
     target_currency target_language tracking_id user : PyVal)
    (w : World) (req : Request) (name : string) (rest : list Event) :
  trace (smart_match_product device_id app country device fields keywords
           page_no product_id site target_currency target_language
           tracking_id user w).2
    = (trace w ++ EvTransport req name :: rest)%list ->
  field req "tracking_id" = Some tracking_id
  /\ field req "target_currency" = Some target_currency
  /\ field req "target_language" = Some target_language
  /\ field req "device_id" = Some device_id
  /\ field req "app_signature" = Some (_app_signature (self w)).
Proof.
  intros Ht. rewrite smart_match_send in Ht.
  apply send_request in Ht as [Hreq _].
  - revert Hreq. unfold smartmatch_request, bind_res.
    destruct (get_list_as_string fields) as [e|f]; [done|].
    intros [= <-]. repeat split; read_field.
  - intros r. apply extends_if; [apply extends_parse_into_envelope|grows].
Qed.

(** *** The field list of [get_order_list] *)

Lemma py_join_comma_strings names :
  py_join_comma (List.map PyStr names) = inr (String.concat "," names).
Proof.
  induction names as [|x [|y rest] IH]; try done.
  change (py_join_comma (List.map PyStr (x :: y :: rest)))
    with (match py_join_comma (List.map PyStr (y :: rest)) with
          | inr t => inr (x ++ "," ++ t)
          | inl e => inl e
          end).
  by rewrite IH.
Qed.

Lemma py_join_comma_non_string l x :
  In x l -> (forall s, x <> PyStr s) ->
  exists msg, py_join_comma l = inl (TypeError msg).
Proof.
  intros Hin Hx. induction l as [|a rest IH]; [done|].
  destruct a; try (simpl; by eexists).
  destruct Hin as [<-|Hin]; [by destruct (Hx s)|].
  destruct (IH Hin) as [msg Hmsg].
  destruct rest as [|b rest']; [done|].
  exists msg.
  change (py_join_comma (PyStr s :: b :: rest'))
    with (match py_join_comma (b :: rest') with
          | inr t => inr (s ++ "," ++ t)
          | inl e => inl e
          end).
  by rewrite Hmsg.
Qed.

Section OrderList.

Variables status start_time end_time locale_site page_no page_size : PyVal.

Local Abbreviation orders fields :=
  (get_order_list status start_time end_time fields locale_site page_no
     page_size).

Lemma order_list_sent fields w req name rest :
  trace (orders fields w).2 = (trace w ++ EvTransport req name :: rest)%list ->
  order_list_request (self w) status start_time end_time fields locale_site
    page_no page_size = inr req.
Proof.
  intros Ht.
  eapply (send_request (order_list_request (self w) status start_time end_time
                          fields locale_site page_no page_size)) in Ht
    as [Hreq _]; [done|].
  intros r. apply extends_check_count. grows.
Qed.

(** X15.  [get_order_list] sends a list of field names as one string, the
    names joined by commas in their order (the empty string for an empty
    list), and sends anything that is not a list, [None] included, as it
    is. *)
Theorem order_list_joins_field_names
    (fields : PyVal) (w : World) (req : Request) (name : string)
    (rest : list Event) :
  trace (orders fields w).2 = (trace w ++ EvTransport req name :: rest)%list ->
  (forall names, fields = PyList (List.map PyStr names) ->
                 field req "fields" = Some (PyStr (String.concat "," names)))
  /\ ((forall l, fields <> PyList l) -> field req "fields" = Some fields).
Proof.
  intros Ht. apply order_list_sent in Ht. revert Ht.
  unfold order_list_request, bind_res. split.
  - intros names ->. revert Ht. unfold join_if_list, bind_res.
    rewrite py_join_comma_strings. intros [= <-]. read_field.
  - intros Hl. revert Ht.
    destruct fields; try (by destruct (Hl items)); simpl;
      intros [= <-]; read_field.
Qed.

(** X16.  A field list holding anything but strings makes
    [get_order_list] raise [TypeError] while it builds the request: the
    world is untouched and the transport is not called. *)
Theorem order_list_rejects_non_string_field
    (l : list PyVal) (x : PyVal) (w : World) :
  In x l ->
  (forall s, x <> PyStr s) ->
  exists msg, orders (PyList l) w = (inl (TypeError msg), w).
Proof.
  intros Hin Hx. destruct (py_join_comma_non_string l x Hin Hx) as [msg Hmsg].
  exists msg.
  change (orders (PyList l) w)
    with (send (order_list_request (self w) status start_time end_time
                  (PyList l) locale_site page_no page_size)
            "aliexpress_affiliate_order_list_response"
            (fun response =>
               check_count response "current_record_count" (ret response)
                 (OrdersNotFoundException
                    "No orders found for the specified parameters")) w).
  rewrite send_run.
  unfold order_list_request, join_if_list, bind_res. by rewrite Hmsg.
Qed.

End OrderList.

(** *** Envelopes without a positive count *)

(** X17.  A count that is an integer not above zero, negative ones
    included, is treated like zero: the operation raises its not-found
    exception after the one transport call and nothing else. *)
Theorem non_positive_count_raises_not_found
    (op : FetchOp) (w : World) (req : Request) (resp : PyVal) (z : Z) :
  guard_ok op (self w) = true ->
  built op (self w) = inr req ->
  api_request (transport_calls w) req (response_name_of op) = inr resp ->
  py_getattr resp (count_field op) = inr (PyInt z) ->
  (z <= 0)%Z ->
  run_op op w
  = (inl (not_found op),
     mkWorld (self w) (trace w ++ [EvTransport req (response_name_of op)])).
Proof.
  intros Hg Hb Ha Hc Hz. rewrite run_op_fetch by done. unfold fetch.
  rewrite send_run, Hb. simpl. rewrite Ha.
  unfold check_count, bind, lift, raise. rewrite Hc. simpl.
  by rewrite (proj2 (Z.ltb_ge 0 z) Hz).
Qed.

(** X18.  An envelope that has no count attribute is not taken for an
    empty result: the operation raises [AttributeError] for the count
    attribute it reads, not its not-found exception. *)
Theorem missing_count_is_attribute_error
    (op : FetchOp) (w : World) (req : Request) (resp : PyVal) :
  guard_ok op (self w) = true ->
  built op (self w) = inr req ->
  api_request (transport_calls w) req (response_name_of op) = inr resp ->
  py_hasattr resp (count_field op) = false ->
  (run_op op w).1 = inl (AttributeError (count_field op))
  /\ (run_op op w).1 <> inl (not_found op).
Proof.
  intros Hg Hb Ha Hc. rewrite run_op_fetch by done. unfold fetch.
  rewrite send_run, Hb. simpl. rewrite Ha.
  unfold check_count, bind, lift.
  assert (py_getattr resp (count_field op)
          = inl (AttributeError (count_field op))) as ->.
  { revert Hc. unfold py_hasattr, py_getattr. destruct resp; try done.
    by destruct (assoc_lookup _ _). }
  simpl. split; [done|]. by destruct op.
Qed.

End Client.







(** ** Concrete runs *)


(** A client without a tracking id asks for links: the guard raises and
    the transport, which would have answered, is not called. *)
Lemma affiliate_links_need_tracking_id_witness :
  get_affiliate_links (fixed_transport links_envelope) join_list_or_scalar
    one_link link_type_hot (fresh_world PyNone)
  = (inl (InvalidTrackingIdException
            "The tracking id is required for affiliate links"),
     fresh_world PyNone)
  /\ transport_calls
       (get_affiliate_links (fixed_transport links_envelope)
          join_list_or_scalar one_link link_type_hot (fresh_world PyNone)).2
     = 0%nat.
Proof.
  apply (affiliate_links_need_tracking_id (fixed_transport links_envelope)
           join_list_or_scalar (fresh_world PyNone) one_link link_type_hot).
  reflexivity.
Defined.

(** The same with the empty string as tracking id. *)
Lemma affiliate_links_reject_falsy_tracking_id_witness :
  get_affiliate_links (fixed_transport links_envelope) join_list_or_scalar
    one_link link_type_hot (fresh_world (PyStr ""))
  = (inl (InvalidTrackingIdException
            "The tracking id is required for affiliate links"),
     fresh_world (PyStr ""))
  /\ transport_calls
       (get_affiliate_links (fixed_transport links_envelope)
          join_list_or_scalar one_link link_type_hot (fresh_world (PyStr ""))).2
     = 0%nat.
Proof.
  apply (affiliate_links_reject_falsy_tracking_id
           (fixed_transport links_envelope) join_list_or_scalar
           (fresh_world (PyStr "")) one_link link_type_hot).
  reflexivity.
Defined.

(** The accessors on a client whose cache holds three categories. *)
Lemma cache_controls_refetch_witness :
  transport_calls
    (get_parent_categories (fixed_transport categories_envelope)
       (PyBool true) cached_world).2 = 0%nat
  /\ transport_calls
       (get_child_categories (fixed_transport categories_envelope) 100
          (PyBool true) cached_world).2 = 0%nat
  /\ transport_calls
       (get_parent_categories (fixed_transport categories_envelope)
          (PyBool false) cached_world).2 = 1%nat
  /\ transport_calls
       (get_child_categories (fixed_transport categories_envelope) 100
          (PyBool false) cached_world).2 = 1%nat.
Proof.
  apply (cache_controls_refetch (fixed_transport categories_envelope)
           cached_world cached_world 100 100).
  reflexivity.
Defined.

(** A smart match answered without a products attribute, and one answered
    with one product. *)
Lemma smart_match_outcome_by_products_field_witness :
  (exists request,
     smart_match_product (fixed_transport no_products_envelope) keep_products
       join_list_or_scalar (PyStr "device-1") PyNone PyNone PyNone PyNone
       PyNone PyNone PyNone PyNone PyNone PyNone PyNone PyNone
       (fresh_world PyNone)
     = (inl (ProductsNotFoudException
               "No products found with current parameters"),
        mkWorld (client_with PyNone)
          [EvTransport request
             "aliexpress_affiliate_product_smartmatch_response"]))
  /\ (smart_match_product (fixed_transport smartmatch_envelope) keep_products
        join_list_or_scalar (PyStr "device-1") PyNone PyNone PyNone PyNone
        PyNone PyNone PyNone PyNone PyNone PyNone PyNone PyNone
        (fresh_world PyNone)).1
     = inr (PyObj [("products", PyList [one_product])]).
Proof.
  split.
  - eexists.
    apply (proj1 (smart_match_outcome_by_products_field
                    (fixed_transport no_products_envelope) keep_products
                    join_list_or_scalar (PyStr "device-1") PyNone PyNone
                    PyNone PyNone PyNone PyNone PyNone PyNone PyNone PyNone
                    PyNone PyNone (fresh_world PyNone) _ no_products_envelope
                    eq_refl eq_refl)).
    left. reflexivity.
  - destruct (proj2 (proj2 (smart_match_outcome_by_products_field
                (fixed_transport smartmatch_envelope) keep_products
                join_list_or_scalar (PyStr "device-1") PyNone PyNone PyNone
                PyNone PyNone PyNone PyNone PyNone PyNone PyNone PyNone PyNone
                (fresh_world PyNone) _ smartmatch_envelope eq_refl eq_refl))
              _ eq_refl eq_refl) as (_ & _ & H).
    destruct (H _ _ eq_refl eq_refl) as (envelope & Hr & Hs & _).
    rewrite Hr. injection Hs as <-. reflexivity.
Defined.

(** A smart match answered with a products attribute that is an object
    without records: the attribute is truthy, and the method raises
    [AttributeError] where it reads the records; no envelope comes back. *)
Lemma smart_match_truthy_products_without_records :
  py_getattr recordless_envelope "products" = inr (PyObj [])
  /\ py_truthy (PyObj []) = true
  /\ (smart_match_product (fixed_transport recordless_envelope) keep_products
        join_list_or_scalar (PyStr "device-1") PyNone PyNone PyNone PyNone
        PyNone PyNone PyNone PyNone PyNone PyNone PyNone PyNone
        (fresh_world PyNone)).1
     = inl (AttributeError "product")
  /\ ~ exists envelope,
        (smart_match_product (fixed_transport recordless_envelope)
           keep_products join_list_or_scalar (PyStr "device-1") PyNone PyNone
           PyNone PyNone PyNone PyNone PyNone PyNone PyNone PyNone PyNone
           PyNone (fresh_world PyNone)).1
        = inr envelope.
Proof.
  repeat split. intros [envelope H]. discriminate H.
Qed.

(** The request of a smart match called with [app="shop"]. *)
Lemma smart_match_app_is_tuple_witness :
  exists request,
    field request "app" = Some (PyTuple [PyStr "shop"])
    /\ field request "app" <> Some (PyStr "shop").
Proof.
  eexists.
  eapply (smart_match_app_is_tuple (fixed_transport smartmatch_envelope)
            keep_products join_list_or_scalar (PyStr "device-1")
            (PyStr "shop") PyNone PyNone PyNone PyNone PyNone PyNone PyNone
            PyNone PyNone PyNone PyNone (fresh_world PyNone)).
  reflexivity.
Defined.

(** The request of [get_products()], every argument left at [None]. *)
Lemma delivery_days_is_sent_as_text_witness :
  exists request,
    field request "delivery_days" = Some (PyStr "None")
    /\ field request "delivery_days" <> Some PyNone.
Proof.
  eexists.
  eapply (delivery_days_is_sent_as_text
            (fixed_transport no_products_envelope) keep_products
            join_list_or_scalar PyNone PyNone PyNone PyNone PyNone PyNone
            PyNone PyNone PyNone PyNone None (fresh_world PyNone)).
  right. reflexivity.
Defined.

(** Tracking id "abc123", one link, link type HOT, a transport that
    answers with one promotion link. *)
Lemma single_link_passed_through_witness :
  (get_affiliate_links (fixed_transport links_envelope) join_list_or_scalar
     one_link link_type_hot (fresh_world (PyStr "abc123"))).1
  = inr (PyList [promotion_link])
  /\ parse_calls
       (get_affiliate_links (fixed_transport links_envelope)
          join_list_or_scalar one_link link_type_hot
          (fresh_world (PyStr "abc123"))).2
     = 0%nat.
Proof.
  eapply (single_link_passed_through (fixed_transport links_envelope)
            join_list_or_scalar (fresh_world (PyStr "abc123")) one_link
            link_type_hot _ links_envelope); reflexivity.
Defined.

(** One parent (id 1) and two children (parents 100 and 200) in the cache:
    the children of 100 are the one child whose parent is 100. *)
Lemma child_categories_are_the_matching_ones_witness :
  get_child_categories failing_transport 100 (PyBool true) cached_world
  = (inr (PyList [child_category 2 100]), cached_world).
Proof.
  apply (proj1 (child_categories_are_the_matching_ones failing_transport
                  cached_world three_categories 100 eq_refl
                  ltac:(discriminate))).
Defined.

(** ** Concrete runs of the further properties *)

(** [get_products()] over a transport that refuses the connection. *)
Lemma transport_error_propagates_witness :
  exists request,
    run_method failing_transport keep_products join_list_or_scalar
      wrap_product_ids (Fetch plain_search) (fresh_world PyNone)
    = (inl (Raised "ApiRequestException" "connection refused"),
       mkWorld (client_with PyNone)
         [EvTransport request "aliexpress_affiliate_product_query_response"]).
Proof.
  eexists.
  eapply (transport_error_propagates failing_transport keep_products
            join_list_or_scalar wrap_product_ids (Fetch plain_search)
            (fresh_world PyNone) _ _ []); reflexivity.
Defined.

(** A smart match leaves the cached categories where they are. *)
Lemma client_configuration_is_kept_witness :
  self (run_method (fixed_transport smartmatch_envelope) keep_products
          join_list_or_scalar wrap_product_ids
          (SmartMatch (PyStr "device-1") PyNone PyNone PyNone PyNone PyNone
             PyNone PyNone PyNone PyNone PyNone PyNone PyNone)
          cached_world).2
  = self cached_world.
Proof.
  apply (proj2 (client_configuration_is_kept
                  (fixed_transport smartmatch_envelope) keep_products
                  join_list_or_scalar wrap_product_ids
                  (SmartMatch (PyStr "device-1") PyNone PyNone PyNone PyNone
                     PyNone PyNone PyNone PyNone PyNone PyNone PyNone PyNone)
                  cached_world)).
  reflexivity.
Defined.

(** An order list that returned: the transport had reported two records. *)
Lemma returns_only_on_positive_count_witness :
  exists req resp count,
    built join_list_or_scalar wrap_product_ids plain_order_list
          (client_with PyNone) = inr req
    /\ fixed_transport orders_envelope 0 req
         (response_name_of plain_order_list) = inr resp
    /\ py_getattr resp (count_field plain_order_list) = inr count
    /\ py_gt_zero count = inr true.
Proof.
  eapply (returns_only_on_positive_count (fixed_transport orders_envelope)
            keep_products join_list_or_scalar wrap_product_ids
            plain_order_list (fresh_world PyNone)).
  reflexivity.
Defined.

(** The details of product 4000. *)
Lemma products_details_returns_parsed_witness :
  exists request,
    get_products_details (fixed_transport products_envelope) keep_products
      join_list_or_scalar wrap_product_ids (PyStr "4000") PyNone PyNone
      (fresh_world PyNone)
    = (inr (PyList [one_product]),
       mkWorld (client_with PyNone)
         [EvTransport request "aliexpress_affiliate_productdetail_get_response";
          EvParse (PyList [one_product])]).
Proof.
  eexists.
  eapply (products_details_returns_parsed (fixed_transport products_envelope)
            keep_products join_list_or_scalar wrap_product_ids
            (PyStr "4000") PyNone PyNone (fresh_world PyNone) _
            products_envelope _ (PyList [one_product]) 1);
    reflexivity.
Defined.

(** A search answered with one product out of forty. *)
Lemma search_returns_envelope_witness :
  exists envelope,
    (run_op (fixed_transport products_envelope) keep_products
       join_list_or_scalar wrap_product_ids plain_search
       (fresh_world PyNone)).1 = inr envelope
    /\ py_getattr envelope "products" = inr (PyList [one_product])
    /\ forall name, name <> "products" ->
                    py_getattr envelope name = py_getattr products_envelope name.
Proof.
  eapply (search_returns_envelope (fixed_transport products_envelope)
            keep_products join_list_or_scalar wrap_product_ids plain_search
            (fresh_world PyNone) _ products_envelope _ _ _ 1);
    reflexivity.
Defined.

(** An order list answered with two orders. *)
Lemma order_list_returns_envelope_witness :
  exists request,
    get_order_list (fixed_transport orders_envelope)
      (PyStr "Payment Completed") (PyStr "2024-01-01 00:00:00")
      (PyStr "2024-01-31 23:59:59") PyNone PyNone PyNone PyNone
      (fresh_world PyNone)
    = (inr orders_envelope,
       mkWorld (client_with PyNone)
         [EvTransport request "aliexpress_affiliate_order_list_response"]).
Proof.
  eexists.
  eapply (order_list_returns_envelope (fixed_transport orders_envelope)
            (PyStr "Payment Completed") (PyStr "2024-01-01 00:00:00")
            (PyStr "2024-01-31 23:59:59") PyNone PyNone PyNone PyNone
            (fresh_world PyNone) _ orders_envelope 2);
    reflexivity.
Defined.

(** A count of three with one link: the one link comes back. *)
Lemma links_returned_as_received_witness :
  exists request,
    get_affiliate_links (fixed_transport lopsided_links_envelope)
      join_list_or_scalar one_link link_type_hot (fresh_world (PyStr "abc123"))
    = (inr (PyList [promotion_link]),
       mkWorld (client_with (PyStr "abc123"))
         [EvTransport request "aliexpress_affiliate_link_generate_response"]).
Proof.
  eexists.
  eapply (links_returned_as_received (fixed_transport lopsided_links_envelope)
            join_list_or_scalar one_link link_type_hot
            (fresh_world (PyStr "abc123")) _ lopsided_links_envelope _ _ 3);
    reflexivity.
Defined.

(** Product ids given as a number are refused before anything is sent. *)
Lemma refused_arguments_never_reach_transport_witness :
  run_op (fixed_transport products_envelope) keep_products
    join_list_or_scalar wrap_product_ids
    (OpProductsDetails (PyInt 4000) PyNone PyNone) (fresh_world PyNone)
  = (inl (Raised "InvalidArgumentException"
                 "Argument product_ids should be a list or string"),
     fresh_world PyNone).
Proof.
  apply (refused_arguments_never_reach_transport
           (fixed_transport products_envelope) keep_products
           join_list_or_scalar wrap_product_ids
           (OpProductsDetails (PyInt 4000) PyNone PyNone) (fresh_world PyNone));
    reflexivity.
Defined.

(** The first accessor call on a new client. *)
Lemma empty_cache_always_fetches_witness :
  transport_calls
    (get_parent_categories (fixed_transport categories_envelope)
       (PyBool true) (fresh_world PyNone)).2 = 1%nat
  /\ transport_calls
       (get_child_categories (fixed_transport categories_envelope) 100
          (PyBool true) (fresh_world PyNone)).2 = 1%nat.
Proof.
  apply (empty_cache_always_fetches (fixed_transport categories_envelope)
           (fresh_world PyNone) (PyBool true) 100).
  reflexivity.
Defined.

(** A forced refresh over a dead transport, three categories cached. *)
Lemma failed_refresh_keeps_cache_witness :
  exists w1,
    get_parent_categories failing_transport (PyBool false) cached_world
    = (inl (Raised "ApiRequestException" "connection refused"), w1)
    /\ get_child_categories failing_transport 100 (PyBool false) cached_world
       = (inl (Raised "ApiRequestException" "connection refused"), w1)
    /\ self w1 = self cached_world.
Proof.
  eexists.
  eapply (failed_refresh_keeps_cache failing_transport cached_world).
  reflexivity.
Defined.

(** A fetch on a new client, then the accessors. *)
Lemma accessors_answer_from_last_fetch_witness :
  exists w1,
    get_parent_categories (fixed_transport categories_envelope)
      (PyBool true) w1
    = (inr (PyList [parent_category]), w1)
    /\ get_child_categories (fixed_transport categories_envelope) 200
         (PyBool true) w1
       = (inr (PyList [child_category 3 200]), w1)
    /\ transport_calls w1 = 1%nat.
Proof.
  eexists.
  eapply (accessors_answer_from_last_fetch
            (fixed_transport categories_envelope) (fresh_world PyNone) _
            (PyList three_categories) 200);
    reflexivity.
Defined.

(** The request of a search on a client with tracking id "abc123". *)
Lemma requests_carry_client_defaults_witness :
  exists req,
    field req "app_signature" = Some PyNone
    /\ field req "tracking_id" = Some (PyStr "abc123")
    /\ field req "target_currency" = Some (PyStr "USD")
    /\ field req "target_language" = Some (PyStr "EN").
Proof.
  eexists.
  eapply (requests_carry_client_defaults join_list_or_scalar wrap_product_ids
            plain_search (client_with (PyStr "abc123"))).
  reflexivity.
Defined.

(** A smart match with its own tracking id on that client. *)
Lemma smart_match_uses_caller_targeting_witness :
  exists req,
    field req "tracking_id" = Some (PyStr "campaign-7")
    /\ field req "target_currency" = Some (PyStr "EUR")
    /\ field req "target_language" = Some (PyStr "ES")
    /\ field req "device_id" = Some (PyStr "device-1")
    /\ field req "app_signature" = Some PyNone.
Proof.
  eexists.
  eapply (smart_match_uses_caller_targeting
            (fixed_transport smartmatch_envelope) keep_products
            join_list_or_scalar (PyStr "device-1") PyNone PyNone PyNone
            PyNone PyNone PyNone PyNone PyNone (PyStr "EUR") (PyStr "ES")
            (PyStr "campaign-7") PyNone (fresh_world (PyStr "abc123"))).
  reflexivity.
Defined.

(** Two field names. *)
Lemma order_list_joins_field_names_witness :
  exists req,
    field req "fields" = Some (PyStr "order_id,paid_time").
Proof.
  eexists.
  eapply (proj1 (order_list_joins_field_names
                   (fixed_transport orders_envelope)
                   (PyStr "Payment Completed") (PyStr "2024-01-01 00:00:00")
                   (PyStr "2024-01-31 23:59:59") PyNone PyNone PyNone
                   (PyList [PyStr "order_id"; PyStr "paid_time"])
                   (fresh_world PyNone) _ _ _ eq_refl)
                ["order_id"; "paid_time"]).
  reflexivity.
Defined.

(** A number among the field names. *)
Lemma order_list_rejects_non_string_field_witness :
  exists msg,
    get_order_list (fixed_transport orders_envelope)
      (PyStr "Payment Completed") (PyStr "2024-01-01 00:00:00")
      (PyStr "2024-01-31 23:59:59") (PyList [PyStr "order_id"; PyInt 3])
      PyNone PyNone PyNone (fresh_world PyNone)
    = (inl (TypeError msg), fresh_world PyNone).
Proof.
  apply (order_list_rejects_non_string_field (fixed_transport orders_envelope)
           (PyStr "Payment Completed") (PyStr "2024-01-01 00:00:00")
           (PyStr "2024-01-31 23:59:59") PyNone PyNone PyNone
           [PyStr "order_id"; PyInt 3] (PyInt 3) (fresh_world PyNone)).
  - right. left. reflexivity.
  - intros s. discriminate.
Defined.

(** An order list answered with a count of -1. *)
Lemma non_positive_count_raises_not_found_witness :
  exists request,
    run_op (fixed_transport negative_count_envelope) keep_products
      join_list_or_scalar wrap_product_ids plain_order_list
      (fresh_world PyNone)
    = (inl (OrdersNotFoundException
              "No orders found for the specified parameters"),
       mkWorld (client_with PyNone)
         [EvTransport request "aliexpress_affiliate_order_list_response"]).
Proof.
  eexists.
  eapply (non_positive_count_raises_not_found
            (fixed_transport negative_count_envelope) keep_products
            join_list_or_scalar wrap_product_ids plain_order_list
            (fresh_world PyNone) _ negative_count_envelope (-1));
    reflexivity || (intros H; discriminate H).
Defined.

(** An order list answered with an envelope that counts nothing. *)
Lemma missing_count_is_attribute_error_witness :
  (run_op (fixed_transport bare_envelope) keep_products join_list_or_scalar
     wrap_product_ids plain_order_list (fresh_world PyNone)).1
  = inl (AttributeError "current_record_count")
  /\ (run_op (fixed_transport bare_envelope) keep_products
        join_list_or_scalar wrap_product_ids plain_order_list
        (fresh_world PyNone)).1
     <> inl (OrdersNotFoundException
               "No orders found for the specified parameters").
Proof.
  eapply (missing_count_is_attribute_error (fixed_transport bare_envelope)
            keep_products join_list_or_scalar wrap_product_ids
            plain_order_list (fresh_world PyNone) _ bare_envelope);
    reflexivity.
Defined.
